(** * The quality-gated warehouse pipeline of [dags/postgres_dwh_pipeline.py]

    A shallow embedding of the Airflow DAG [sql_dwh_pipeline_with_assertions]:
    the helper [run_quality_assertion], the five task bodies and the
    dependency chain [bronze >> silver >> silver_qc >> gold >> gold_qc].

    Python effects are made explicit.  A task body is a computation in a
    state-and-exception monad over a [World]: the warehouse state, the lines
    printed so far and the trace of calls made on the PostgreSQL hook.
    [raise] is the left branch of the result; nothing in the DAG catches an
    exception except [read_sql_file], which re-raises. *)

From Stdlib Require Import ZArith QArith List String Ascii Bool Lia DecimalString.
Import ListNotations.
Local Open Scope string_scope.
Local Open Scope Z_scope.

(* ================================================================== *)
(** ** Python values and the few built-ins the DAG relies on *)

Module Py.

(** A [decimal.Decimal] as psycopg2 builds it from a finite PostgreSQL
    [numeric]: an integer coefficient and a number of fractional digits;
    the value is [d_unscaled / 10 ^ d_scale]. *)
Record Decimal := mkDecimal { d_unscaled : Z; d_scale : nat }.

(** The scalars a result row of the warehouse may carry, as far as the DAG
    looks at them: SQL NULL, [bigint] (from [COUNT]), [numeric] (from
    [ROUND]) and text. *)
Inductive value :=
| VNone
| VInt (z : Z)
| VDec (d : Decimal)
| VStr (s : string).

(** Exceptions that travel through the DAG.  [DatabaseError] stands for
    whatever the hook raises (connection, syntax, permission). *)
Inductive exn :=
| AirflowException (msg : string)
| TypeError (msg : string)
| FileNotFoundError (msg : string)
| DatabaseError (msg : string).

Definition exn_msg (e : exn) : string :=
  match e with
  | AirflowException m | TypeError m | FileNotFoundError m | DatabaseError m => m
  end.

(** [str(int)] *)
Definition str_int (z : Z) : string := NilZero.string_of_int (Z.to_int z).

(** [s * n] on strings *)
Fixpoint str_mul (s : string) (n : nat) : string :=
  match n with
  | O => ""
  | S n' => s ++ str_mul s n'
  end.

(** [str(Decimal)], following [Decimal.__str__] for a finite number whose
    exponent is [- d_scale <= 0]: plain notation while the leftmost digit is
    no further right than the sixth fractional place, scientific otherwise. *)
Definition str_decimal (d : Decimal) : string :=
  let sign := if d_unscaled d <? 0 then "-" else "" in
  let digits := NilZero.string_of_uint (N.to_uint (Z.abs_N (d_unscaled d))) in
  let len := Z.of_nat (String.length digits) in
  let leftdigits := len - Z.of_nat (d_scale d) in
  let dotplace := if -6 <? leftdigits then leftdigits else 1 in
  let '(intpart, fracpart) :=
    if dotplace <=? 0 then
      ("0", "." ++ str_mul "0" (Z.to_nat (- dotplace)) ++ digits)
    else if len <=? dotplace then
      (digits ++ str_mul "0" (Z.to_nat (dotplace - len)), "")
    else
      (substring 0 (Z.to_nat dotplace) digits,
       "." ++ substring (Z.to_nat dotplace) (Z.to_nat (len - dotplace)) digits) in
  let exp :=
    if leftdigits =? dotplace then ""
    else "E" ++ (if 0 <=? leftdigits - dotplace then "+" else "")
             ++ str_int (leftdigits - dotplace) in
  sign ++ intpart ++ fracpart ++ exp.

(** What an f-string substitutes for [{v}]. *)
Definition str (v : value) : string :=
  match v with
  | VNone => "None"
  | VInt z => str_int z
  | VDec d => str_decimal d
  | VStr s => s
  end.

(** [v is None] *)
Definition is_None (v : value) : bool :=
  match v with VNone => true | _ => false end.

(** [v != n] for an [int] right operand.  Numbers compare by value across
    [int] and [Decimal]; [None] and [str] are unequal to every [int]. *)
Definition ne_int (v : value) (n : Z) : bool :=
  match v with
  | VInt z => negb (z =? n)
  | VDec d => negb (d_unscaled d =? n * 10 ^ Z.of_nat (d_scale d))
  | VNone | VStr _ => true
  end.

(** [v < 95.0]-style comparison against a float literal with the integral
    value [n].  [int] and [Decimal] compare exactly with a float; [None] and
    [str] make the operator raise [TypeError]. *)
Definition lt_float (v : value) (n : Z) : exn + bool :=
  match v with
  | VInt z => inr (z <? n)
  | VDec d => inr (d_unscaled d <? n * 10 ^ Z.of_nat (d_scale d))
  | VNone =>
      inl (TypeError "'<' not supported between instances of 'NoneType' and 'float'")
  | VStr _ =>
      inl (TypeError "'<' not supported between instances of 'str' and 'float'")
  end.

(** [s.replace(a, b)] for one-character [a] and [b]. *)
Fixpoint replace_char (a b : ascii) (s : string) : string :=
  match s with
  | EmptyString => EmptyString
  | String c s' => String (if Ascii.eqb c a then b else c) (replace_char a b s')
  end.

Fixpoint ends_with_slash (s : string) : bool :=
  match s with
  | EmptyString => false
  | String c EmptyString => Ascii.eqb c "/"
  | String _ s' => ends_with_slash s'
  end.

(** [os.path.join(a, b)] of [posixpath] (the DAG file runs in the Airflow
    container). *)
Definition path_join (a b : string) : string :=
  if prefix "/" b then b
  else if (String.length a =? 0)%nat || ends_with_slash a then a ++ b
  else a ++ "/" ++ b.

(** [os.path.basename(p)] of [posixpath]: what follows the last slash. *)
Fixpoint basename (p : string) : string :=
  match p with
  | EmptyString => EmptyString
  | String c p' =>
      if Ascii.eqb c "/" then basename p'
      else if existsb (Ascii.eqb "/") (list_ascii_of_string p') then basename p'
      else p
  end.

End Py.
Import Py.

(* ================================================================== *)
(** ** SQL texts

    The DAG passes its queries as inline literals; they are named here so
    that the task bodies below stay readable.  Each text is the literal of
    the source, whitespace included. *)

(** SQL text of the call at line 165. *)
Definition sql_silver_dup_customers : string :=
  "
            SELECT COUNT(*) FROM (
                SELECT cst_id, COUNT(*) 
                FROM silver.crm_cust_info 
                GROUP BY cst_id 
                HAVING COUNT(*) > 1
            ) duplicates;
            ".

(** SQL text of the call at line 179. *)
Definition sql_silver_null_customer_ids : string :=
  "SELECT COUNT(*) FROM silver.crm_cust_info WHERE cst_id IS NULL;".

(** SQL text of the call at line 186. *)
Definition sql_silver_dup_products : string :=
  "
            SELECT COUNT(*) FROM (
                SELECT prd_id, COUNT(*) 
                FROM silver.crm_prd_info 
                GROUP BY prd_id 
                HAVING COUNT(*) > 1
            ) duplicates;
            ".

(** SQL text of the call at line 227. *)
Definition sql_gold_null_customer_keys : string :=
  "SELECT COUNT(*) FROM gold.dim_customers WHERE customer_key IS NULL;".

(** SQL text of the call at line 234. *)
Definition sql_gold_dup_customers : string :=
  "
            SELECT COUNT(*) FROM (
                SELECT customer_id, COUNT(*) 
                FROM gold.dim_customers 
                GROUP BY customer_id 
                HAVING COUNT(*) > 1
            ) duplicates;
            ".

(** SQL text of the call at line 248. *)
Definition sql_gold_null_product_keys : string :=
  "SELECT COUNT(*) FROM gold.dim_products WHERE product_key IS NULL;".

(** SQL text of the call at line 255. *)
Definition sql_gold_orphan_products : string :=
  "
            SELECT COUNT(*) 
            FROM gold.fact_sales f
            WHERE f.product_key NOT IN (
                SELECT product_key 
                FROM gold.dim_products 
                WHERE product_key IS NOT NULL
            );
            ".

(** SQL text of the call at line 270. *)
Definition sql_gold_orphan_customers : string :=
  "
            SELECT COUNT(*) 
            FROM gold.fact_sales f
            WHERE f.customer_key NOT IN (
                SELECT customer_key 
                FROM gold.dim_customers 
                WHERE customer_key IS NOT NULL
            );
            ".

(** SQL text of the call at line 287. *)
Definition sql_gold_completeness : string :=
  "
            SELECT ROUND(
                100.0 * SUM(CASE WHEN product_key IS NOT NULL AND customer_key IS NOT NULL THEN 1 ELSE 0 END) 
                / NULLIF(COUNT(*), 0), 
                2
            ) AS completeness_percentage
            FROM gold.fact_sales;
        ".

(* ================================================================== *)
(** ** Configuration constants *)

Definition POSTGRES_CONN_ID : string := "postgres_dw".

Definition WINDOWS_PROJECT_ROOT : string :=
  "C:\Users\vlado\Desktop\SQL-project-last\SQL-Data-Warehouse-Project".
Definition WINDOWS_DATASETS_PATH : string := path_join WINDOWS_PROJECT_ROOT "data_sets".
Definition CRM_PATH : string := path_join WINDOWS_DATASETS_PATH "source_crm".
Definition ERP_PATH : string := path_join WINDOWS_DATASETS_PATH "source_erp".

Definition CONTAINER_PROJECT_ROOT : string := "/opt/airflow/project_root".
Definition SQL_SCRIPTS_DIR : string := path_join CONTAINER_PROJECT_ROOT "scripts".
Definition SQL_TESTS_DIR : string := path_join CONTAINER_PROJECT_ROOT "tests".

(* ================================================================== *)
(** ** Worlds, results and the task monad *)

(** One call on a [PostgresHook], as recorded in the trace. *)
Inductive HookCall :=
| GetFirst (sql : string)
| Run (sql : string).

Inductive result (A : Type) :=
| Returned (a : A)
| Raised (e : exn).
Arguments Returned {A} a.
Arguments Raised {A} e.

Definition is_returned {A} (r : result A) : bool :=
  match r with Returned _ => true | Raised _ => false end.

Section Warehouse.

(** The state of the warehouse behind the connection. *)
Variable DB : Type.

Record World := mkWorld {
  db : DB;                  (* the warehouse *)
  stdout : list string;     (* lines printed, oldest first *)
  calls : list HookCall     (* hook calls made, oldest first *)
}.

(** What a hook does with a statement: an answer (or an exception) and the
    warehouse afterwards.  [get_first] answers [None] when the query yields
    no row and [Some row] otherwise. *)
Record Hook := mkHook {
  hook_get_first : string -> DB -> result (option (list value)) * DB;
  hook_run : string -> DB -> result unit * DB
}.

Definition M (A : Type) : Type := World -> result A * World.

Definition ret {A} (a : A) : M A := fun w => (Returned a, w).

Definition raise {A} (e : exn) : M A := fun w => (Raised e, w).

Definition bind {A B} (m : M A) (k : A -> M B) : M B :=
  fun w =>
    match m w with
    | (Returned a, w') => k a w'
    | (Raised e, w') => (Raised e, w')
    end.

Definition print (line : string) : M unit :=
  fun w => (Returned tt, mkWorld (db w) (stdout w ++ [line]) (calls w)).

(** [pg_hook.get_first(query)] *)
Definition get_first (pg_hook : Hook) (query : string) : M (option (list value)) :=
  fun w =>
    let '(r, d) := hook_get_first pg_hook query (db w) in
    (r, mkWorld d (stdout w) (calls w ++ [GetFirst query])).

(** [pg_hook.run(sql)] *)
Definition run (pg_hook : Hook) (sql : string) : M unit :=
  fun w =>
    let '(r, d) := hook_run pg_hook sql (db w) in
    (r, mkWorld d (stdout w) (calls w ++ [Run sql])).

End Warehouse.

Arguments mkWorld {DB} _ _ _.
Arguments db {DB} _.
Arguments stdout {DB} _.
Arguments calls {DB} _.
Arguments mkHook {DB} _ _.
Arguments hook_get_first {DB} _ _ _.
Arguments hook_run {DB} _ _ _.
Arguments ret {DB A} _ _.
Arguments raise {DB A} _ _.
Arguments bind {DB A B} _ _ _.
Arguments print {DB} _ _.
Arguments get_first {DB} _ _ _.
Arguments run {DB} _ _ _.

Declare Scope task_scope.
Delimit Scope task_scope with task.
Notation "x <- m ;; k" := (bind m (fun x => k))
  (at level 61, m at next level, right associativity) : task_scope.
Notation "m ;; k" := (bind m (fun _ => k))
  (at level 61, right associativity) : task_scope.
Local Open Scope task_scope.

(* ================================================================== *)
(** ** Helper functions of the DAG file *)

Section Pipeline.

Variable DB : Type.

(** [PostgresHook(postgres_conn_id=...)]: the hook a connection id stands
    for.  Building a hook opens nothing; errors show when it is used. *)
Variable PostgresHook : string -> Hook DB.

(** The files the Airflow container can read: path to content. *)
Variable fs : string -> option string.

(** [read_sql_file], lines 62-72. *)
Definition read_sql_file (file_path : string) : M DB string :=
  match fs file_path with
  | Some sql_content =>
      print ("✓ Successfully loaded: " ++ basename file_path) ;;
      ret sql_content
  | None =>
      let error_msg := "✗ CRITICAL: SQL file not found at " ++ file_path in
      print error_msg ;;
      raise (FileNotFoundError error_msg)
  end.

(** [run_quality_assertion], lines 75-100.  The keyword argument
    [expected_value] is [None] when the caller omits it and takes its
    default 0 then. *)
Definition run_quality_assertion (pg_hook : Hook DB) (test_name query : string)
    (expected_value_arg : option Z) : M DB unit :=
  let expected_value := match expected_value_arg with Some n => n | None => 0 end in
  print ("  → Running: " ++ test_name) ;;
  result <- get_first pg_hook query ;;
  let actual_value := match result with Some (v :: _) => v | _ => VNone end in
  if is_None actual_value then
    raise (AirflowException ("❌ " ++ test_name ++ ": Query returned NULL"))
  else if ne_int actual_value expected_value then
    raise (AirflowException
             ("❌ " ++ test_name ++ " FAILED: Expected " ++ str_int expected_value
                   ++ ", got " ++ str actual_value))
  else
    print ("    ✓ PASS: " ++ str actual_value
                ++ " (expected: " ++ str_int expected_value ++ ")").

(* ================================================================== *)
(** ** The five task bodies *)

(** [load_bronze_task], lines 122-140. *)
Definition load_bronze_task : M DB unit :=
  let pg_hook := PostgresHook POSTGRES_CONN_ID in
  let crm_path_postgres := replace_char "\" "/" CRM_PATH ++ "/" in
  let erp_path_postgres := replace_char "\" "/" ERP_PATH ++ "/" in
  let sql_command :=
    "CALL bronze.load_bronze('" ++ crm_path_postgres ++ "', '"
                                ++ erp_path_postgres ++ "');" in
  print "📦 Executing Bronze Layer Load..." ;;
  print ("   CRM Path: " ++ crm_path_postgres) ;;
  print ("   ERP Path: " ++ erp_path_postgres) ;;
  run pg_hook sql_command ;;
  print "✓ Bronze layer loaded successfully".

(** [load_silver_task], lines 142-151. *)
Definition load_silver_task : M DB unit :=
  let pg_hook := PostgresHook POSTGRES_CONN_ID in
  let sql_command := "CALL silver.load_silver();" in
  print "🔄 Executing Silver Layer Transformation..." ;;
  run pg_hook sql_command ;;
  print "✓ Silver layer loaded successfully".

(** [check_silver_quality_task], lines 153-201. *)
Definition check_silver_quality_task : M DB unit :=
  let pg_hook := PostgresHook POSTGRES_CONN_ID in
  print "🔍 Executing Silver Layer Quality Assertions..." ;;
  print (str_mul "=" 60) ;;
  run_quality_assertion pg_hook
    "No duplicate customers in silver.crm_cust_info"
    sql_silver_dup_customers (Some 0) ;;
  run_quality_assertion pg_hook
    "No NULL customer IDs in silver.crm_cust_info"
    sql_silver_null_customer_ids (Some 0) ;;
  run_quality_assertion pg_hook
    "No duplicate products in silver.crm_prd_info"
    sql_silver_dup_products (Some 0) ;;
  print (str_mul "=" 60) ;;
  print "✓ All Silver quality assertions passed".

(** [create_gold_views_task], lines 203-213. *)
Definition create_gold_views_task : M DB unit :=
  let pg_hook := PostgresHook POSTGRES_CONN_ID in
  let gold_file_path := path_join (path_join SQL_SCRIPTS_DIR "gold") "ddl_gold.sql" in
  sql_script <- read_sql_file gold_file_path ;;
  print "⭐ Creating Gold Layer Views..." ;;
  run pg_hook sql_script ;;
  print "✓ Gold layer views created successfully".

(** The data-completeness check written inline in
    [check_gold_quality_task], lines 285-304: a missing row counts as 0, and
    the value of the row is compared with the float [95.0]. *)
Definition gold_completeness_check (pg_hook : Hook DB) : M DB unit :=
  print "  → Checking: Data completeness (must be >= 95%)" ;;
  result <- get_first pg_hook sql_gold_completeness ;;
  let completeness := match result with Some (v :: _) => v | _ => VInt 0 end in
  match lt_float completeness 95 with
  | inl type_error => raise type_error
  | inr true =>
      raise (AirflowException
               ("❌ Data completeness FAILED: " ++ str completeness
                     ++ "% (expected >= 95%)"))
  | inr false =>
      print ("    ✓ PASS: " ++ str completeness ++ "% completeness (threshold: >= 95%)")
  end.

(** [check_gold_quality_task], lines 215-307. *)
Definition check_gold_quality_task : M DB unit :=
  let pg_hook := PostgresHook POSTGRES_CONN_ID in
  print "🔍 Executing Gold Layer Quality Assertions..." ;;
  print (str_mul "=" 60) ;;
  run_quality_assertion pg_hook
    "No NULL customer keys in dim_customers"
    sql_gold_null_customer_keys (Some 0) ;;
  run_quality_assertion pg_hook
    "No duplicate customers in dim_customers"
    sql_gold_dup_customers (Some 0) ;;
  run_quality_assertion pg_hook
    "No NULL product keys in dim_products"
    sql_gold_null_product_keys (Some 0) ;;
  run_quality_assertion pg_hook
    "No orphaned products in fact_sales"
    sql_gold_orphan_products (Some 0) ;;
  run_quality_assertion pg_hook
    "No orphaned customers in fact_sales"
    sql_gold_orphan_customers (Some 0) ;;
  gold_completeness_check pg_hook ;;
  print (str_mul "=" 60) ;;
  print "✓ All Gold quality assertions passed".

End Pipeline.

Arguments read_sql_file {DB} _ _ _.
Arguments run_quality_assertion {DB} _ _ _ _ _.
Arguments gold_completeness_check {DB} _ _.

(* ================================================================== *)
(** ** The DAG and how Airflow runs it

    The DAG file only declares tasks and the edges between them; running
    them is Airflow's part.  What the file relies on is modelled here: every
    task keeps the default trigger rule [all_success] and no retries, so a
    task instance is executed once all its upstream tasks succeeded, and is
    set aside without being executed as soon as one upstream task failed or
    was itself set aside (Airflow shows this as [upstream_failed]; the
    specification calls it Skipped). *)

Section Airflow.

Variable DB : Type.

Record Task := mkTask {
  task_id : string;
  python_callable : M DB unit
}.

Inductive State :=
| Pending
| Succeeded
| Failed (cause : exn)
| Skipped.

Definition is_pending (s : State) : bool :=
  match s with Pending => true | _ => false end.
Definition is_succeeded (s : State) : bool :=
  match s with Succeeded => true | _ => false end.
Definition is_failed_or_skipped (s : State) : bool :=
  match s with Failed _ | Skipped => true | _ => false end.

Definition Edge : Type := string * string.

Record DAG := mkDAG {
  dag_tasks : list Task;     (* in order of instantiation *)
  dag_edges : list Edge      (* (upstream, downstream) *)
}.

(** [a >> b] records [b] as downstream of [a] and evaluates to [b], so that
    [a >> b >> c] chains.  The left operand carries the edges recorded so
    far. *)
Definition Chain : Type := list Edge * Task.
Definition start (t : Task) : Chain := ([], t).
Definition rshift (lhs : Chain) (rhs : Task) : Chain :=
  ((fst lhs ++ [(task_id (snd lhs), task_id rhs)])%list, rhs).

Record DagRun := mkDagRun {
  ti_states : list (string * State);   (* one task instance per task *)
  executed : list string;              (* task ids in the order they ran *)
  world : World DB
}.

Definition state_of (sts : list (string * State)) (t : string) : State :=
  match find (fun p => String.eqb (fst p) t) sts with
  | Some p => snd p
  | None => Pending
  end.

Definition set_state (sts : list (string * State)) (t : string) (s : State)
  : list (string * State) :=
  map (fun p => if String.eqb (fst p) t then (fst p, s) else p) sts.

Definition upstream_ids (edges : list Edge) (t : string) : list string :=
  map fst (filter (fun e => String.eqb (snd e) t) edges).

Inductive Decision := Execute | SetAside | Wait.

(** The trigger rule [all_success]. *)
Definition decide (g : DAG) (sts : list (string * State)) (t : Task) : Decision :=
  let ups := upstream_ids (dag_edges g) (task_id t) in
  if forallb (fun u => is_succeeded (state_of sts u)) ups then Execute
  else if existsb (fun u => is_failed_or_skipped (state_of sts u)) ups then SetAside
  else Wait.

Definition actionable (g : DAG) (sts : list (string * State)) (t : Task) : bool :=
  is_pending (state_of sts (task_id t)) &&
  match decide g sts t with Wait => false | _ => true end.

(** One scheduling decision: the first pending task whose upstream tasks
    allow a decision is either executed or set aside. *)
Definition step (g : DAG) (r : DagRun) : option DagRun :=
  match find (actionable g (ti_states r)) (dag_tasks g) with
  | None => None
  | Some t =>
      match decide g (ti_states r) t with
      | Execute =>
          let '(res, w') := python_callable t (world r) in
          let s := match res with Returned _ => Succeeded | Raised e => Failed e end in
          Some (mkDagRun (set_state (ti_states r) (task_id t) s)
                         (executed r ++ [task_id t]) w')
      | _ =>
          Some (mkDagRun (set_state (ti_states r) (task_id t) Skipped)
                         (executed r) (world r))
      end
  end.

Fixpoint schedule (fuel : nat) (g : DAG) (r : DagRun) : DagRun :=
  match fuel with
  | O => r
  | S fuel' =>
      match step g r with
      | None => r
      | Some r' => schedule fuel' g r'
      end
  end.

(** A DAG run: every task instance starts pending; each scheduling decision
    settles one of them, so as many decisions as there are tasks suffice. *)
Definition run_dag (g : DAG) (w : World DB) : DagRun :=
  schedule (List.length (dag_tasks g)) g
           (mkDagRun (map (fun t => (task_id t, Pending)) (dag_tasks g)) [] w).

(** How a run ended, read off the task instances: completed when all
    succeeded, aborted at the first failed one (counting from 0) with the
    exception it raised. *)
Inductive Outcome :=
| Completed
| Aborted (at_stage : nat) (cause : exn)
| Incomplete.

Fixpoint first_failed (i : nat) (sts : list State) : option (nat * exn) :=
  match sts with
  | [] => None
  | Failed e :: _ => Some (i, e)
  | _ :: rest => first_failed (S i) rest
  end.

Definition run_outcome (r : DagRun) : Outcome :=
  let sts := map snd (ti_states r) in
  match first_failed 0 sts with
  | Some (i, e) => Aborted i e
  | None => if forallb is_succeeded sts then Completed else Incomplete
  end.

(** What one run lets an observer see. *)
Record Report := mkReport {
  rep_stages : list (string * State);
  rep_log : list string;
  rep_calls : list HookCall;
  rep_outcome : Outcome
}.

Definition report_of (r : DagRun) : Report :=
  mkReport (ti_states r) (stdout (world r)) (calls (world r)) (run_outcome r).

(** The edges [t0 >> t1 >> ... >> tn] records. *)
Definition chain_of (t0 : Task) (rest : list Task) : Chain :=
  fold_left rshift rest (start t0).

Definition chain_dag (ts : list Task) : DAG :=
  mkDAG ts (match ts with [] => [] | t0 :: rest => fst (chain_of t0 rest) end).

End Airflow.

Arguments mkTask {DB} _ _.
Arguments task_id {DB} _.
Arguments python_callable {DB} _ _.
Arguments mkDAG {DB} _ _.
Arguments dag_tasks {DB} _.
Arguments dag_edges {DB} _.
Arguments start {DB} _.
Arguments rshift {DB} _ _.
Arguments mkDagRun {DB} _ _ _.
Arguments ti_states {DB} _.
Arguments executed {DB} _.
Arguments world {DB} _.
Arguments decide {DB} _ _ _.
Arguments actionable {DB} _ _ _.
Arguments step {DB} _ _.
Arguments schedule {DB} _ _ _.
Arguments run_dag {DB} _ _.
Arguments run_outcome {DB} _.
Arguments report_of {DB} _.
Arguments chain_of {DB} _ _.
Arguments chain_dag {DB} _.

Notation "a >> b" := (rshift a b) (at level 40, left associativity) : task_scope.

Section Dag.

Variable DB : Type.
Variable PostgresHook : string -> Hook DB.
Variable fs : string -> option string.

(** [sql_data_warehouse_pipeline_with_assertions], lines 116-316: the five
    decorated tasks and the chain of dependencies between them. *)
Definition sql_data_warehouse_pipeline_with_assertions : DAG DB :=
  let bronze := mkTask "load_bronze" (load_bronze_task DB PostgresHook) in
  let silver := mkTask "load_silver" (load_silver_task DB PostgresHook) in
  let silver_qc :=
    mkTask "check_silver_quality" (check_silver_quality_task DB PostgresHook) in
  let gold := mkTask "create_gold_views" (create_gold_views_task DB PostgresHook fs) in
  let gold_qc :=
    mkTask "check_gold_quality" (check_gold_quality_task DB PostgresHook) in
  mkDAG [bronze; silver; silver_qc; gold; gold_qc]
        (fst (start bronze >> silver >> silver_qc >> gold >> gold_qc)).

End Dag.

Arguments sql_data_warehouse_pipeline_with_assertions {DB} _ _.

(* ================================================================== *)
(** ** Vocabulary for stating the properties *)

(** The number a scalar stands for, if it is one. *)
Definition to_Q (v : value) : option Q :=
  match v with
  | VInt z => Some (inject_Z z)
  | VDec d => Some (d_unscaled d # Z.to_pos (10 ^ Z.of_nat (d_scale d)))
  | VNone | VStr _ => None
  end.

(** [actual == expected], [actual >= expected] and [actual <= expected] for
    an integral [expected]: the scalar is a number and the numbers compare
    so. *)
Definition num_eq (actual : value) (expected : Z) : Prop :=
  exists q, to_Q actual = Some q /\ (q == inject_Z expected)%Q.
Definition num_ge (actual : value) (expected : Z) : Prop :=
  exists q, to_Q actual = Some q /\ (inject_Z expected <= q)%Q.
Definition num_le (actual : value) (expected : Z) : Prop :=
  exists q, to_Q actual = Some q /\ (q <= inject_Z expected)%Q.

(** A computation passes in a world when it returns normally there. *)
Definition passes {DB A} (m : M DB A) (w : World DB) : Prop :=
  exists a, fst (m w) = Returned a.

(** The world an assertion leaves when it does not pass: announced and
    queried, nothing else. *)
Definition after_query {DB} (w : World DB) (test_name query : string) (d : DB)
  : World DB :=
  mkWorld d (stdout w ++ ["  → Running: " ++ test_name]) (calls w ++ [GetFirst query]).

(** The value [expected_value] is bound to. *)
Definition expected_of (arg : option Z) : Z :=
  match arg with Some n => n | None => 0 end.

(** [sub in s] *)
Fixpoint contains (sub s : string) : bool :=
  prefix sub s ||
  match s with
  | EmptyString => false
  | String _ s' => contains sub s'
  end.

(** Reading a trace and a log. *)
Definition get_first_queries (cs : list HookCall) : list string :=
  flat_map (fun c => match c with GetFirst q => [q] | Run _ => [] end) cs.
Definition announcements (out : list string) : list string :=
  filter (prefix "  → ") out.
Definition pass_marks (out : list string) : list string :=
  filter (prefix "    ✓ PASS") out.

(** One declared check of a quality gate: the line that announces it, the
    query it sends and the code that evaluates it. *)
Record Check (DB : Type) := mkCheck {
  chk_announce : string;
  chk_query : string;
  chk_body : M DB unit
}.
Arguments mkCheck {DB} _ _ _.
Arguments chk_announce {DB} _.
Arguments chk_query {DB} _.
Arguments chk_body {DB} _ _.

Section Gates.

Variable DB : Type.
Variable PostgresHook : string -> Hook DB.

Definition assertion_check (test_name query : string) : Check DB :=
  mkCheck ("  → Running: " ++ test_name) query
          (run_quality_assertion (PostgresHook POSTGRES_CONN_ID) test_name query (Some 0)).

(** The assertions of [check_silver_quality_task], in the order declared. *)
Definition silver_checks : list (Check DB) :=
  [ assertion_check "No duplicate customers in silver.crm_cust_info"
                    sql_silver_dup_customers;
    assertion_check "No NULL customer IDs in silver.crm_cust_info"
                    sql_silver_null_customer_ids;
    assertion_check "No duplicate products in silver.crm_prd_info"
                    sql_silver_dup_products ].

(** The assertions of [check_gold_quality_task], in the order declared. *)
Definition gold_checks : list (Check DB) :=
  [ assertion_check "No NULL customer keys in dim_customers"
                    sql_gold_null_customer_keys;
    assertion_check "No duplicate customers in dim_customers"
                    sql_gold_dup_customers;
    assertion_check "No NULL product keys in dim_products"
                    sql_gold_null_product_keys;
    assertion_check "No orphaned products in fact_sales"
                    sql_gold_orphan_products;
    assertion_check "No orphaned customers in fact_sales"
                    sql_gold_orphan_customers;
    mkCheck "  → Checking: Data completeness (must be >= 95%)"
            sql_gold_completeness
            (gold_completeness_check (PostgresHook POSTGRES_CONN_ID)) ].

End Gates.

Arguments assertion_check {DB} _ _ _.
Arguments silver_checks {DB} _.
Arguments gold_checks {DB} _.

(** The checks of a gate one after the other, as the task bodies write
    them out. *)
Fixpoint run_checks {DB} (cs : list (Check DB)) : M DB unit :=
  match cs with
  | [] => ret tt
  | c :: rest => chk_body c ;; run_checks rest
  end.

(** What one check leaves behind: one query, its announcement first, and a
    pass mark exactly when it returns. *)
Definition check_footprint {DB} (c : Check DB) : Prop :=
  prefix "  → " (chk_announce c) = true /\
  prefix "    ✓ PASS" (chk_announce c) = false /\
  forall w, exists lines,
    calls (snd (chk_body c w)) = (calls w ++ [GetFirst (chk_query c)])%list /\
    stdout (snd (chk_body c w)) = (stdout w ++ chk_announce c :: lines)%list /\
    announcements lines = [] /\
    List.length (pass_marks lines)
    = if is_returned (fst (chk_body c w)) then 1%nat else 0%nat.

(** A task evaluates the declared checks in order and stops at the first
    that does not pass: the first [k] checks, and no other, were announced
    and queried, in the declared order.  If the task returns, [k] is the
    number of checks and all are marked passed.  If it raises, the first
    [k - 1] checks are marked passed, and the exception and the final world
    are those the [k]-th check left. *)
Definition fail_fast {DB} (task : M DB unit) (checks : list (Check DB)) : Prop :=
  forall w,
    exists (k : nat) new_calls new_lines,
      (k <= List.length checks)%nat /\
      calls (snd (task w)) = (calls w ++ new_calls)%list /\
      stdout (snd (task w)) = (stdout w ++ new_lines)%list /\
      get_first_queries new_calls = map chk_query (firstn k checks) /\
      announcements new_lines = map chk_announce (firstn k checks) /\
      match fst (task w) with
      | Returned _ =>
          k = List.length checks /\ List.length (pass_marks new_lines) = k
      | Raised e =>
          (0 < k)%nat /\
          List.length (pass_marks new_lines) = (k - 1)%nat /\
          exists c w1,
            nth_error checks (k - 1) = Some c /\
            chk_body c w1 = (Raised e, snd (task w))
      end.

(** *** Chains of tasks *)

(** The edges between neighbours of a list of task ids. *)
Fixpoint chain_edges (ids : list string) : list (string * string) :=
  match ids with
  | a :: (b :: _) as rest => (a, b) :: chain_edges rest
  | _ => []
  end.

(** Task instances all in one state. *)
Definition mark {DB} (s : State) (ts : list (Task DB)) : list (string * State) :=
  map (fun t => (task_id t, s)) ts.

(** Tasks run one after the other in list order until one raises; the
    tasks behind it are set aside.  The result is the state of each task
    instance, the ids of the tasks that ran, and the world at the end. *)
Fixpoint run_in_order {DB} (ts : list (Task DB)) (w : World DB)
  : list (string * State) * list string * World DB :=
  match ts with
  | [] => ([], [], w)
  | t :: rest =>
      match python_callable t w with
      | (Returned _, w') =>
          let '(sts, ran, w'') := run_in_order rest w' in
          ((task_id t, Succeeded) :: sts, task_id t :: ran, w'')
      | (Raised e, w') =>
          ((task_id t, Failed e) :: mark Skipped rest, [task_id t], w')
      end
  end.

(** *** Warehouses an executor cannot tell apart

    [R] relates warehouse states.  A hook is read-stable for [R] when, on
    related states, every query and every statement gets the same answer
    and leaves related states.  With [R] the equality this says no more
    than that the hook is a function; a coarser [R] lets the states differ
    in what no answer depends on. *)
Definition read_stable {DB} (R : DB -> DB -> Prop) (pg_hook : Hook DB) : Prop :=
  (forall query d1 d2, R d1 d2 ->
     fst (hook_get_first pg_hook query d1) = fst (hook_get_first pg_hook query d2) /\
     R (snd (hook_get_first pg_hook query d1)) (snd (hook_get_first pg_hook query d2))) /\
  (forall sql d1 d2, R d1 d2 ->
     fst (hook_run pg_hook sql d1) = fst (hook_run pg_hook sql d2) /\
     R (snd (hook_run pg_hook sql d1)) (snd (hook_run pg_hook sql d2))).

(** Worlds with related warehouses, the same log and the same trace. *)
Definition same_view {DB} (R : DB -> DB -> Prop) (w1 w2 : World DB) : Prop :=
  R (db w1) (db w2) /\ stdout w1 = stdout w2 /\ calls w1 = calls w2.

(** A computation that behaves alike in such worlds. *)
Definition respects {DB A} (R : DB -> DB -> Prop) (m : M DB A) : Prop :=
  forall w1 w2, same_view R w1 w2 ->
    fst (m w1) = fst (m w2) /\ same_view R (snd (m w1)) (snd (m w2)).

(** *** The comparators of the specification

    The specification describes assertions that carry a comparator.  The
    DAG compares a query result in two places and neither takes one:
    [run_quality_assertion] and the completeness check written inline in
    the Gold gate. *)
Inductive Comparator := Equals | GreaterOrEqual | LessOrEqual.

(** The comparison the specification asks for, in its words. *)
Definition spec_compare (c : Comparator) (actual : value) (expected : Z) : Prop :=
  match c with
  | Equals => num_eq actual expected
  | GreaterOrEqual => num_ge actual expected
  | LessOrEqual => num_le actual expected
  end.

(** A check of the code evaluates comparator [c] against [expected] when,
    on every warehouse and whatever scalar its query yields, it passes
    exactly if the comparison of the specification holds. *)
Definition evaluates (check : forall DB, Hook DB -> M DB unit) (query : string)
    (c : Comparator) (expected : Z) : Prop :=
  forall DB (pg_hook : Hook DB) (w : World DB) actual rest,
    fst (hook_get_first pg_hook query (db w)) = Returned (Some (actual :: rest)) ->
    (passes (check DB pg_hook) w <-> spec_compare c actual expected).

(** How the texts of a failure reason may name a comparator. *)
Definition comparator_texts : list string :=
  [ "Equals"; "equals"; "equal"; "=="; "!="; "=";
    "GreaterOrEqual"; ">="; ">"; "at least";
    "LessOrEqual"; "<="; "<"; "at most" ].

(** Warehouses described by what they answer in every state. *)
Definition always_counts_zero {DB} (pg_hook : Hook DB) (query : string) : Prop :=
  forall d, exists v rest,
    fst (hook_get_first pg_hook query d) = Returned (Some (v :: rest)) /\ num_eq v 0.

Definition always_answers {DB} (pg_hook : Hook DB) (query : string)
    (res : option (list value)) : Prop :=
  forall d, fst (hook_get_first pg_hook query d) = Returned res.

(** The five counting queries of the Gold gate. *)
Definition gold_count_queries : list string :=
  [ sql_gold_null_customer_keys; sql_gold_dup_customers; sql_gold_null_product_keys;
    sql_gold_orphan_products; sql_gold_orphan_customers ].

(** The failure [run_quality_assertion] reserves for a missing value. *)
Definition is_missing_result (test_name : string) (r : result unit) : Prop :=
  r = Raised (AirflowException ("❌ " ++ test_name ++ ": Query returned NULL")).

(** *** Answers, statements and traces of the tasks *)

(** The answer is a row whose first scalar equals [n]. *)
Definition row_equals (res : option (list value)) (n : Z) : Prop :=
  exists v rest, res = Some (v :: rest) /\ num_eq v n.

(** The value the completeness check compares for an answer. *)
Definition completeness_of (res : option (list value)) : value :=
  match res with Some (v :: _) => v | _ => VInt 0 end.

(** A hook whose queries leave the warehouse as it is. *)
Definition read_only {DB} (pg_hook : Hook DB) : Prop :=
  forall query d, snd (hook_get_first pg_hook query d) = d.

(** The statement [load_bronze_task] builds from the two Windows paths. *)
Definition bronze_statement : string :=
  "CALL bronze.load_bronze('C:/Users/vlado/Desktop/SQL-project-last/SQL-Data-Warehouse-Project/data_sets/source_crm/', 'C:/Users/vlado/Desktop/SQL-project-last/SQL-Data-Warehouse-Project/data_sets/source_erp/');".

Definition silver_statement : string := "CALL silver.load_silver();".

(** The path [create_gold_views_task] joins for the Gold script. *)
Definition gold_script_path : string :=
  "/opt/airflow/project_root/scripts/gold/ddl_gold.sql".

Definition silver_queries : list string :=
  [ sql_silver_dup_customers; sql_silver_null_customer_ids; sql_silver_dup_products ].

Definition gold_queries : list string :=
  gold_count_queries ++ [sql_gold_completeness].

(** Everything the pipeline can send to the warehouse, in the order in
    which the chain sends it. *)
Definition pipeline_statements (fs : string -> option string) : list HookCall :=
  ([Run bronze_statement; Run silver_statement]
   ++ map GetFirst silver_queries
   ++ match fs gold_script_path with Some script => [Run script] | None => [] end
   ++ map GetFirst gold_queries)%list.

(** The shape of a data task: print [before], send one statement, and print
    [after] when the statement succeeded. *)
Definition one_statement {DB} (pg_hook : Hook DB) (before : list string)
    (sql : string) (after : string) (w : World DB) : result unit * World DB :=
  let w' := mkWorld (snd (hook_run pg_hook sql (db w))) (stdout w ++ before)
                    (calls w ++ [Run sql]) in
  match fst (hook_run pg_hook sql (db w)) with
  | Returned _ => (Returned tt, mkWorld (db w') (stdout w' ++ [after]) (calls w'))
  | Raised e => (Raised e, w')
  end.

(** What a task body sends and prints: an initial part of [full], all of it
    when the body returns, and then with [n] pass marks among its lines. *)
Definition task_footprint {DB} (body : M DB unit) (full : list HookCall) (n : nat)
  : Prop :=
  forall w, exists (k : nat) lines,
    (k <= List.length full)%nat /\
    calls (snd (body w)) = (calls w ++ firstn k full)%list /\
    stdout (snd (body w)) = (stdout w ++ lines)%list /\
    (is_returned (fst (body w)) = true ->
     k = List.length full /\ List.length (pass_marks lines) = n).

(* ================================================================== *)
(** ** Sample warehouses *)

Module Sample.

(** A warehouse without state whose answers are looked up in a table; a
    query not in the table counts 0, and every statement succeeds. *)
Definition table_hook (answers : list (string * result (option (list value))))
  : Hook unit :=
  mkHook
    (fun q d =>
       (match find (fun p => String.eqb (fst p) q) answers with
        | Some p => snd p
        | None => Returned (Some [VInt 0])
        end, d))
    (fun _ d => (Returned tt, d)).

Definition w0 : World unit := mkWorld tt [] [].

(** A container in which the Gold script exists. *)
Definition fs (path : string) : option string :=
  if String.eqb path "/opt/airflow/project_root/scripts/gold/ddl_gold.sql"
  then Some "CREATE VIEW gold.dim_customers AS SELECT 1;"
  else None.

(** A warehouse that counts the statements it ran and answers every count
    with 0 and the completeness query with 100.00, whatever it ran. *)
Definition counting_hook : Hook nat :=
  mkHook
    (fun q d =>
       (Returned (Some [if String.eqb q sql_gold_completeness
                        then VDec (mkDecimal 10000 2) else VInt 0]), d))
    (fun _ d => (Returned tt, S d)).

(** Two duplicate customers in the Silver layer. *)
Definition dup_customers_hook : Hook unit :=
  table_hook [(sql_silver_dup_customers, Returned (Some [VInt 2]))].

(** A warehouse that cannot be reached: every call raises. *)
Definition offline_hook : Hook unit :=
  mkHook (fun _ d => (Raised (DatabaseError "connection refused"), d))
         (fun _ d => (Raised (DatabaseError "connection refused"), d)).

(** A container without the Gold script. *)
Definition empty_fs (path : string) : option string := None.

(** A warehouse that answers every query with a row holding [v]. *)
Definition constant_hook (v : value) : Hook unit :=
  mkHook (fun _ d => (Returned (Some [v]), d)) (fun _ d => (Returned tt, d)).

(** A healthy warehouse: every count is 0 and completeness is 100.00. *)
Definition healthy_hook : Hook unit :=
  table_hook [(sql_gold_completeness, Returned (Some [VDec (mkDecimal 10000 2)]))].

End Sample.

(* ================================================================== *)
(** ** Comparisons of scalars *)

Lemma pow10_pos (s : nat) : 0 < 10 ^ Z.of_nat s.
Proof. apply Z.pow_pos_nonneg; lia. Qed.

Lemma pow10_to_pos (s : nat) : Z.pos (Z.to_pos (10 ^ Z.of_nat s)) = 10 ^ Z.of_nat s.
Proof. apply Z2Pos.id, pow10_pos. Qed.

Lemma to_Q_eq_int (v : value) (n : Z) :
  num_eq v n <-> is_None v = false /\ ne_int v n = false.
Proof.
  unfold num_eq; destruct v as [|z|d|s]; simpl.
  - split; [intros (q & Hq & _); discriminate | intros [H _]; discriminate].
  - split.
    + intros (q & Hq & He). injection Hq as <-.
      unfold Qeq in He; simpl in He.
      split; [reflexivity|]. apply negb_false_iff, Z.eqb_eq. lia.
    + intros [_ H]. apply negb_false_iff, Z.eqb_eq in H. subst.
      exists (inject_Z n). split; [reflexivity | apply Qeq_refl].
  - split.
    + intros (q & Hq & He). injection Hq as <-.
      unfold Qeq in He; simpl in He. rewrite pow10_to_pos in He.
      split; [reflexivity|]. apply negb_false_iff, Z.eqb_eq. lia.
    + intros [_ H]. apply negb_false_iff, Z.eqb_eq in H.
      eexists; split; [reflexivity|].
      unfold Qeq; simpl. rewrite pow10_to_pos. lia.
  - split; [intros (q & Hq & _); discriminate | intros [_ H]; discriminate].
Qed.

Lemma to_Q_ge_int (v : value) (n : Z) :
  num_ge v n <-> lt_float v n = inr false.
Proof.
  unfold num_ge; destruct v as [|z|d|s]; simpl.
  - split; [intros (q & Hq & _); discriminate | discriminate].
  - split.
    + intros (q & Hq & He). injection Hq as <-.
      rewrite <- Zle_Qle in He. f_equal. apply Z.ltb_ge. exact He.
    + intros H. injection H as H. apply Z.ltb_ge in H.
      eexists; split; [reflexivity|]. now rewrite <- Zle_Qle.
  - split.
    + intros (q & Hq & He). injection Hq as <-.
      unfold Qle in He; simpl in He. rewrite pow10_to_pos in He.
      f_equal. apply Z.ltb_ge. lia.
    + intros H. injection H as H. apply Z.ltb_ge in H.
      eexists; split; [reflexivity|].
      unfold Qle; simpl. rewrite pow10_to_pos. lia.
  - split; [intros (q & Hq & _); discriminate | discriminate].
Qed.

(* ================================================================== *)
(** ** Substrings *)

Lemma prefix_app (a s : string) : prefix a (a ++ s) = true.
Proof.
  induction a as [|c a IH]; simpl; [now destruct s|].
  destruct (ascii_dec c c) as [_|n]; [exact IH | now elim n].
Qed.

Lemma contains_here (a s : string) : contains a (a ++ s) = true.
Proof.
  assert (H : forall t, prefix a t = true -> contains a t = true)
    by (intros [|c t] Ht; cbn [contains]; now rewrite Ht).
  apply H, prefix_app.
Qed.

Lemma contains_self (a : string) : contains a a = true.
Proof.
  assert (H : prefix a a = true).
  { induction a as [|c a IH]; simpl; [reflexivity|].
    destruct (ascii_dec c c) as [_|n]; [exact IH | now elim n]. }
  destruct a; cbn [contains]; now rewrite H.
Qed.

Lemma contains_skip (a x s : string) : contains a s = true -> contains a (x ++ s) = true.
Proof.
  intros H. induction x as [|c x IH]; simpl; [exact H|].
  rewrite IH. apply orb_true_r.
Qed.

Lemma contains_mid (a x y : string) : contains a (x ++ a ++ y) = true.
Proof. apply contains_skip, contains_here. Qed.

(* ================================================================== *)
(** ** One assertion *)

Section AssertionEngine.

Variable DB : Type.
Implicit Types (pg_hook : Hook DB) (w : World DB).

(** [run_quality_assertion] by the answer of the hook. *)
Lemma run_quality_assertion_eq pg_hook test_name query arg w :
  run_quality_assertion pg_hook test_name query arg w =
  let w2 := after_query w test_name query (snd (hook_get_first pg_hook query (db w))) in
  match fst (hook_get_first pg_hook query (db w)) with
  | Raised e => (Raised e, w2)
  | Returned res =>
      let actual := match res with Some (v :: _) => v | _ => VNone end in
      if is_None actual then
        (Raised (AirflowException ("❌ " ++ test_name ++ ": Query returned NULL")), w2)
      else if ne_int actual (expected_of arg) then
        (Raised (AirflowException
                   ("❌ " ++ test_name ++ " FAILED: Expected " ++ str_int (expected_of arg)
                         ++ ", got " ++ str actual)), w2)
      else
        (Returned tt,
         mkWorld (db w2)
                 (stdout w2 ++ ["    ✓ PASS: " ++ str actual ++ " (expected: "
                                               ++ str_int (expected_of arg) ++ ")"])
                 (calls w2))
  end.
Proof.
  unfold run_quality_assertion, bind, print, get_first, after_query, expected_of; simpl.
  destruct (hook_get_first pg_hook query (db w)) as [[res|e] d]; simpl; [|reflexivity].
  destruct (is_None _); [reflexivity|].
  destruct (ne_int _ _); reflexivity.
Qed.

(** An assertion passes exactly when the query yields a row whose first
    scalar equals the expected value. *)
Lemma run_quality_assertion_passes_iff pg_hook test_name query arg w :
  passes (run_quality_assertion pg_hook test_name query arg) w <->
  exists actual rest,
    fst (hook_get_first pg_hook query (db w)) = Returned (Some (actual :: rest)) /\
    num_eq actual (expected_of arg).
Proof.
  unfold passes. rewrite run_quality_assertion_eq; cbv zeta.
  destruct (fst (hook_get_first pg_hook query (db w))) as [[[|v rest]|]|e]; simpl.
  - split; [intros [a H]; discriminate | intros (? & ? & H & _); discriminate].
  - split.
    + intros [a H]. exists v, rest. split; [reflexivity|].
      apply to_Q_eq_int.
      destruct (is_None v); [discriminate|].
      destruct (ne_int v _); [discriminate|]. now split.
    + intros (a & r & H & Hn). injection H as <- <-.
      apply to_Q_eq_int in Hn as [-> ->]. now exists tt.
  - split; [intros [a H]; discriminate | intros (? & ? & H & _); discriminate].
  - split; [intros [a H]; discriminate | intros (? & ? & H & _); discriminate].
Qed.

(** The completeness check by the answer of the hook. *)
Lemma gold_completeness_check_eq pg_hook w :
  gold_completeness_check pg_hook w =
  let w2 := mkWorld (snd (hook_get_first pg_hook sql_gold_completeness (db w)))
                    (stdout w ++ ["  → Checking: Data completeness (must be >= 95%)"])
                    (calls w ++ [GetFirst sql_gold_completeness]) in
  match fst (hook_get_first pg_hook sql_gold_completeness (db w)) with
  | Raised e => (Raised e, w2)
  | Returned res =>
      let completeness := match res with Some (v :: _) => v | _ => VInt 0 end in
      match lt_float completeness 95 with
      | inl type_error => (Raised type_error, w2)
      | inr true =>
          (Raised (AirflowException
                     ("❌ Data completeness FAILED: " ++ str completeness
                           ++ "% (expected >= 95%)")), w2)
      | inr false =>
          (Returned tt,
           mkWorld (db w2)
                   (stdout w2 ++ ["    ✓ PASS: " ++ str completeness
                                        ++ "% completeness (threshold: >= 95%)"])
                   (calls w2))
      end
  end.
Proof.
  unfold gold_completeness_check, bind, print, get_first; simpl.
  destruct (hook_get_first pg_hook sql_gold_completeness (db w)) as [[res|e] d];
    simpl; [|reflexivity].
  destruct (lt_float _ 95) as [te|[|]]; reflexivity.
Qed.

(** The completeness check passes exactly when the value it compares is a
    number of at least 95; a missing row stands for 0 there. *)
Lemma gold_completeness_check_passes_iff pg_hook w res :
  fst (hook_get_first pg_hook sql_gold_completeness (db w)) = Returned res ->
  passes (gold_completeness_check pg_hook) w <->
  num_ge (match res with Some (v :: _) => v | _ => VInt 0 end) 95.
Proof.
  intros Hans. unfold passes. rewrite gold_completeness_check_eq; cbv zeta.
  rewrite Hans. rewrite to_Q_ge_int.
  destruct (lt_float _ 95) as [te|[|]]; simpl.
  - split; [intros [a H]; discriminate | discriminate].
  - split; [intros [a H]; discriminate | discriminate].
  - split; [reflexivity | now exists tt].
Qed.

Lemma bind_returned {A B} (m : M DB A) (k : A -> M DB B) w a w' :
  m w = (Returned a, w') -> bind m k w = k a w'.
Proof. unfold bind. now intros ->. Qed.

Lemma bind_raised {A B} (m : M DB A) (k : A -> M DB B) w e w' :
  m w = (Raised e, w') -> bind m k w = (Raised e, w').
Proof. unfold bind. now intros ->. Qed.

Lemma passes_returns (m : M DB unit) w :
  passes m w -> exists w', m w = (Returned tt, w').
Proof.
  intros [a H]. destruct (m w) as [[[]|e] w']; simpl in H; [|discriminate].
  now exists w'.
Qed.

Lemma always_counts_zero_passes pg_hook test_name query w :
  always_counts_zero pg_hook query ->
  exists w', run_quality_assertion pg_hook test_name query (Some 0) w = (Returned tt, w').
Proof.
  intros H. apply passes_returns, run_quality_assertion_passes_iff.
  destruct (H (db w)) as (v & rest & Hans & Hv). now exists v, rest.
Qed.

Variable PostgresHook : string -> Hook DB.

(** In a warehouse whose five Gold counts are 0 the Gold gate reaches the
    completeness check, and ends as that check ends. *)
Lemma gold_task_reaches_completeness w :
  Forall (always_counts_zero (PostgresHook POSTGRES_CONN_ID)) gold_count_queries ->
  exists w5,
    fst (check_gold_quality_task DB PostgresHook w)
    = fst (gold_completeness_check (PostgresHook POSTGRES_CONN_ID) w5).
Proof.
  intros H. unfold gold_count_queries in H.
  repeat match goal with
         | F : Forall _ (_ :: _) |- _ => inversion F; subst; clear F
         end.
  unfold check_gold_quality_task; cbv zeta.
  rewrite (bind_returned (print _) _ _ tt _ eq_refl).
  rewrite (bind_returned (print _) _ _ tt _ eq_refl).
  repeat match goal with
         | Hq : always_counts_zero _ ?q
           |- context [bind (run_quality_assertion _ ?n ?q (Some 0)) _ ?w0] =>
             destruct (always_counts_zero_passes _ n q w0 Hq) as [? Hstep];
             rewrite (bind_returned _ _ _ _ _ Hstep); clear Hstep Hq
         end.
  match goal with |- context [bind _ _ ?w5] => exists w5 end.
  unfold bind at 1.
  destruct (gold_completeness_check _ _) as [[[]|e] w6]; reflexivity.
Qed.

End AssertionEngine.

(* ================================================================== *)
(** ** Properties of the assertion engine *)

(** C4.  With the equality comparison of [run_quality_assertion], an
    assertion whose query yields the scalar [actual] passes if and only if
    [actual == expected].  A 0 against an expected 0 passes; a 3 against an
    expected 0 fails, and the reason reports the expected 0 and the 3 that
    was found. *)
Theorem equals_passes_iff_equal :
  forall DB (pg_hook : Hook DB) test_name query expected w actual rest,
    fst (hook_get_first pg_hook query (db w)) = Returned (Some (actual :: rest)) ->
    (passes (run_quality_assertion pg_hook test_name query (Some expected)) w
     <-> num_eq actual expected) /\
    (actual = VInt 0 -> expected = 0 ->
     fst (run_quality_assertion pg_hook test_name query (Some expected) w)
     = Returned tt) /\
    (actual = VInt 3 -> expected = 0 ->
     fst (run_quality_assertion pg_hook test_name query (Some expected) w)
     = Raised (AirflowException ("❌ " ++ test_name ++ " FAILED: Expected 0, got 3"))).
Proof.
  intros DB pg_hook test_name query expected w actual rest Hans.
  split; [|split].
  - rewrite run_quality_assertion_passes_iff. split.
    + intros (a & r & H & Hn). rewrite Hans in H. now injection H as <- <-.
    + intros Hn. now exists actual, rest.
  - intros -> ->. rewrite run_quality_assertion_eq; cbv zeta. now rewrite Hans.
  - intros -> ->. rewrite run_quality_assertion_eq; cbv zeta. now rewrite Hans.
Qed.

Lemma equals_passes_iff_equal_witness :
  fst (run_quality_assertion
         (Sample.table_hook [(sql_silver_null_customer_ids, Returned (Some [VInt 3]))])
         "No NULL customer IDs in silver.crm_cust_info"
         sql_silver_null_customer_ids (Some 0) Sample.w0)
  = Raised (AirflowException
              "❌ No NULL customer IDs in silver.crm_cust_info FAILED: Expected 0, got 3").
Proof.
  apply (equals_passes_iff_equal unit
           (Sample.table_hook [(sql_silver_null_customer_ids, Returned (Some [VInt 3]))])
           "No NULL customer IDs in silver.crm_cust_info"
           sql_silver_null_customer_ids 0 Sample.w0 (VInt 3) []);
    reflexivity.
Defined.

(** C9.  A call of [run_quality_assertion] that leaves [expected_value] out
    compares against 0: it behaves as the call with [expected_value=0], and
    passes if and only if the query yields a scalar equal to 0. *)
Theorem omitted_expected_value_is_zero :
  forall DB (pg_hook : Hook DB) test_name query w,
    run_quality_assertion pg_hook test_name query None w
    = run_quality_assertion pg_hook test_name query (Some 0) w /\
    (passes (run_quality_assertion pg_hook test_name query None) w <->
     exists actual rest,
       fst (hook_get_first pg_hook query (db w)) = Returned (Some (actual :: rest)) /\
       num_eq actual 0).
Proof.
  intros. split; [reflexivity|].
  apply run_quality_assertion_passes_iff.
Qed.

Lemma num_eq_int_iff (a e : Z) : num_eq (VInt a) e <-> a = e.
Proof.
  split.
  - intros (q & Hq & He). injection Hq as <-. unfold Qeq in He; simpl in He. lia.
  - intros ->. exists (inject_Z e). split; [reflexivity | apply Qeq_refl].
Qed.

Lemma num_le_int_iff (a e : Z) : num_le (VInt a) e <-> a <= e.
Proof.
  split.
  - intros (q & Hq & He). injection Hq as <-. now rewrite <- Zle_Qle in He.
  - intros H. exists (inject_Z a). split; [reflexivity | now rewrite <- Zle_Qle].
Qed.

Lemma num_ge_int_iff (a e : Z) : num_ge (VInt a) e <-> e <= a.
Proof.
  split.
  - intros (q & Hq & He). injection Hq as <-. now rewrite <- Zle_Qle in He.
  - intros H. exists (inject_Z a). split; [reflexivity | now rewrite <- Zle_Qle].
Qed.

(** Whether [run_quality_assertion] passes on a warehouse that answers its
    query with the integer [a]. *)
Lemma run_quality_assertion_on_int test_name query arg (a : Z) :
  passes (run_quality_assertion (Sample.constant_hook (VInt a)) test_name query arg)
         Sample.w0
  <-> a = expected_of arg.
Proof.
  rewrite run_quality_assertion_passes_iff. split.
  - intros (v & rest & Hans & Hn). injection Hans as <- <-. now apply num_eq_int_iff.
  - intros ->. exists (VInt (expected_of arg)), [].
    split; [reflexivity | now apply num_eq_int_iff].
Qed.

(** Whether the completeness check passes on a warehouse that answers its
    query with the integer [a]. *)
Lemma gold_completeness_check_on_int (a : Z) :
  passes (gold_completeness_check (Sample.constant_hook (VInt a))) Sample.w0
  <-> 95 <= a.
Proof.
  rewrite (gold_completeness_check_passes_iff unit (Sample.constant_hook (VInt a))
             Sample.w0 (Some [VInt a]) eq_refl).
  apply num_ge_int_iff.
Qed.

(** C6, as the code has it.  The code compares a query result in two
    places and neither takes a comparator.  [run_quality_assertion]
    evaluates [Equals] against its expected value, whatever that is; the
    completeness check of the Gold gate evaluates [GreaterOrEqual] against
    95.  No check evaluates [LessOrEqual]: for no threshold does either of
    the two pass exactly when the scalar is at most the threshold, and
    [run_quality_assertion] evaluates no [GreaterOrEqual] threshold
    either. *)
Theorem code_compares_equal_or_at_least_95 :
  (forall test_name query arg,
      evaluates (fun DB pg_hook => run_quality_assertion pg_hook test_name query arg)
                query Equals (expected_of arg)) /\
  evaluates (fun DB pg_hook => gold_completeness_check pg_hook)
            sql_gold_completeness GreaterOrEqual 95 /\
  (forall threshold,
      (forall test_name query arg,
          ~ evaluates (fun DB pg_hook => run_quality_assertion pg_hook test_name query arg)
                      query LessOrEqual threshold /\
          ~ evaluates (fun DB pg_hook => run_quality_assertion pg_hook test_name query arg)
                      query GreaterOrEqual threshold) /\
      ~ evaluates (fun DB pg_hook => gold_completeness_check pg_hook)
                  sql_gold_completeness LessOrEqual threshold).
Proof.
  split; [|split].
  - intros test_name query arg DB pg_hook w actual rest Hans. cbn [spec_compare].
    rewrite run_quality_assertion_passes_iff. split.
    + intros (v & r & H & Hn). rewrite Hans in H. now injection H as <- <-.
    + intros Hn. now exists actual, rest.
  - intros DB pg_hook w actual rest Hans. cbn [spec_compare].
    now rewrite (gold_completeness_check_passes_iff DB pg_hook w _ Hans).
  - intros threshold. split.
    + intros test_name query arg. split; intros H.
      * destruct (Z_le_gt_dec (expected_of arg) threshold) as [Hle|Hgt].
        -- specialize (H unit (Sample.constant_hook (VInt (expected_of arg - 1)))
                         Sample.w0 (VInt (expected_of arg - 1)) [] eq_refl).
           cbn [spec_compare] in H.
           rewrite run_quality_assertion_on_int, num_le_int_iff in H. lia.
        -- specialize (H unit (Sample.constant_hook (VInt (expected_of arg)))
                         Sample.w0 (VInt (expected_of arg)) [] eq_refl).
           cbn [spec_compare] in H.
           rewrite run_quality_assertion_on_int, num_le_int_iff in H. lia.
      * destruct (Z_le_gt_dec threshold (expected_of arg)) as [Hle|Hgt].
        -- specialize (H unit (Sample.constant_hook (VInt (expected_of arg + 1)))
                         Sample.w0 (VInt (expected_of arg + 1)) [] eq_refl).
           cbn [spec_compare] in H.
           rewrite run_quality_assertion_on_int, num_ge_int_iff in H. lia.
        -- specialize (H unit (Sample.constant_hook (VInt (expected_of arg)))
                         Sample.w0 (VInt (expected_of arg)) [] eq_refl).
           cbn [spec_compare] in H.
           rewrite run_quality_assertion_on_int, num_ge_int_iff in H. lia.
    + intros H. destruct (Z_le_gt_dec 95 threshold) as [Hle|Hgt].
      * specialize (H unit (Sample.constant_hook (VInt 0)) Sample.w0 (VInt 0) [] eq_refl).
        cbn [spec_compare] in H.
        rewrite gold_completeness_check_on_int, num_le_int_iff in H. lia.
      * specialize (H unit (Sample.constant_hook (VInt 100)) Sample.w0 (VInt 100) []
                      eq_refl).
        cbn [spec_compare] in H.
        rewrite gold_completeness_check_on_int, num_le_int_iff in H. lia.
Qed.

Lemma code_compares_equal_or_at_least_95_witness :
  (passes (run_quality_assertion (Sample.table_hook [])
             "No NULL customer IDs in silver.crm_cust_info"
             sql_silver_null_customer_ids (Some 0)) Sample.w0
   <-> spec_compare Equals (VInt 0) 0) /\
  (passes (gold_completeness_check Sample.healthy_hook) Sample.w0
   <-> spec_compare GreaterOrEqual (VDec (mkDecimal 10000 2)) 95).
Proof.
  split.
  - apply (proj1 code_compares_equal_or_at_least_95
             "No NULL customer IDs in silver.crm_cust_info"
             sql_silver_null_customer_ids (Some 0) unit (Sample.table_hook [])
             Sample.w0 (VInt 0) []).
    reflexivity.
  - apply (proj1 (proj2 code_compares_equal_or_at_least_95) unit Sample.healthy_hook
             Sample.w0 (VDec (mkDecimal 10000 2)) []).
    reflexivity.
Defined.

(** C6 as stated fails on both comparisons of the code.  A call of
    [run_quality_assertion] with an expected value of 1 whose query yields 0
    does not pass although 0 is at most 1; the completeness check passes on
    100.00 although 100.00 is not at most 95. *)
Lemma no_check_evaluates_less_or_equal :
  (spec_compare LessOrEqual (VInt 0) 1 /\
   fst (run_quality_assertion
          (Sample.table_hook [(sql_silver_null_customer_ids, Returned (Some [VInt 0]))])
          "No NULL customer IDs in silver.crm_cust_info"
          sql_silver_null_customer_ids (Some 1) Sample.w0)
   = Raised (AirflowException
               "❌ No NULL customer IDs in silver.crm_cust_info FAILED: Expected 1, got 0")) /\
  (~ spec_compare LessOrEqual (VDec (mkDecimal 10000 2)) 95 /\
   fst (gold_completeness_check Sample.healthy_hook Sample.w0) = Returned tt).
Proof.
  split; split.
  - exists (inject_Z 0). split; [reflexivity|]. unfold Qle; simpl; lia.
  - vm_compute. reflexivity.
  - intros (q & Hq & He). injection Hq as <-. unfold Qle in He; simpl in He. lia.
  - vm_compute. reflexivity.
Qed.

(** C7, as the code has it.  When the comparison of [run_quality_assertion]
    fails, the reason carries the name of the assertion, the expected value
    and the actual value.  When the completeness comparison fails, the
    reason carries its name, the comparator [>=], the threshold 95 and the
    actual value. *)
Theorem failure_reason_contents :
  forall DB (pg_hook : Hook DB) w,
    (forall test_name query arg actual rest,
        fst (hook_get_first pg_hook query (db w)) = Returned (Some (actual :: rest)) ->
        actual <> VNone ->
        ~ num_eq actual (expected_of arg) ->
        exists reason,
          fst (run_quality_assertion pg_hook test_name query arg w)
          = Raised (AirflowException reason) /\
          contains test_name reason = true /\
          contains (str_int (expected_of arg)) reason = true /\
          contains (str actual) reason = true) /\
    (forall actual rest,
        fst (hook_get_first pg_hook sql_gold_completeness (db w))
        = Returned (Some (actual :: rest)) ->
        to_Q actual <> None ->
        ~ num_ge actual 95 ->
        exists reason,
          fst (gold_completeness_check pg_hook w) = Raised (AirflowException reason) /\
          contains "Data completeness" reason = true /\
          contains ">=" reason = true /\
          contains "95" reason = true /\
          contains (str actual) reason = true).
Proof.
  intros DB pg_hook w. split.
  - intros test_name query arg actual rest Hans Hnone Hne.
    rewrite run_quality_assertion_eq; cbv zeta. rewrite Hans.
    assert (Hn : is_None actual = false) by (destruct actual; simpl; congruence).
    rewrite Hn.
    destruct (ne_int actual (expected_of arg)) eqn:Hc.
    + eexists; split; [reflexivity|]. split; [|split].
      * apply (contains_mid test_name "❌ ").
      * apply (contains_skip _ "❌ "), (contains_skip _ test_name),
          (contains_mid _ " FAILED: Expected ").
      * apply (contains_skip _ "❌ "), (contains_skip _ test_name),
          (contains_skip _ " FAILED: Expected "), (contains_skip _ (str_int _)),
          (contains_skip _ ", got "), contains_self.
    + elim Hne. apply to_Q_eq_int. now split.
  - intros actual rest Hans Hnum Hlt.
    rewrite gold_completeness_check_eq; cbv zeta. rewrite Hans.
    destruct (lt_float actual 95) as [te|[|]] eqn:Hc.
    + destruct actual; simpl in *; congruence.
    + eexists; split; [reflexivity|]. split; [|split; [|split]].
      * apply (contains_mid "Data completeness" "❌ ").
      * apply (contains_skip _ "❌ Data completeness FAILED: "),
          (contains_skip _ (str actual)), (contains_mid ">=" "% (expected ").
      * apply (contains_skip _ "❌ Data completeness FAILED: "),
          (contains_skip _ (str actual)), (contains_mid "95" "% (expected >= ").
      * apply (contains_mid _ "❌ Data completeness FAILED: ").
    + elim Hlt. now apply to_Q_ge_int.
Qed.

Lemma failure_reason_contents_witness :
  (exists reason,
      fst (run_quality_assertion Sample.dup_customers_hook
             "No duplicate customers in silver.crm_cust_info"
             sql_silver_dup_customers (Some 0) Sample.w0)
      = Raised (AirflowException reason) /\
      contains "No duplicate customers in silver.crm_cust_info" reason = true /\
      contains "0" reason = true /\
      contains "2" reason = true) /\
  (exists reason,
      fst (gold_completeness_check
             (Sample.table_hook
                [(sql_gold_completeness, Returned (Some [VDec (mkDecimal 9499 2)]))])
             Sample.w0)
      = Raised (AirflowException reason) /\
      contains "Data completeness" reason = true /\
      contains ">=" reason = true /\
      contains "95" reason = true /\
      contains "94.99" reason = true).
Proof.
  split.
  - apply (proj1 (failure_reason_contents unit Sample.dup_customers_hook Sample.w0)
             "No duplicate customers in silver.crm_cust_info"
             sql_silver_dup_customers (Some 0) (VInt 2) []).
    + reflexivity.
    + discriminate.
    + intros (q & Hq & He). injection Hq as <-. unfold Qeq in He. simpl in He. lia.
  - apply (proj2 (failure_reason_contents unit
                    (Sample.table_hook
                       [(sql_gold_completeness,
                         Returned (Some [VDec (mkDecimal 9499 2)]))])
                    Sample.w0)
             (VDec (mkDecimal 9499 2)) []).
    + reflexivity.
    + discriminate.
    + intros (q & Hq & He). injection Hq as <-. unfold Qle in He. simpl in He. lia.
Defined.

(** C7 as stated fails: the reason of a failed comparison of
    [run_quality_assertion] names no comparator. *)
Lemma failure_reason_names_no_comparator :
  let reason :=
    "❌ No duplicate customers in silver.crm_cust_info FAILED: Expected 0, got 2" in
  fst (run_quality_assertion Sample.dup_customers_hook
         "No duplicate customers in silver.crm_cust_info"
         sql_silver_dup_customers (Some 0) Sample.w0)
  = Raised (AirflowException reason) /\
  forallb (fun c => negb (contains c reason)) comparator_texts = true.
Proof. split; reflexivity. Qed.

Lemma num_eq_int (z : Z) : num_eq (VInt z) z.
Proof. exists (inject_Z z). split; [reflexivity | apply Qeq_refl]. Qed.

(** A table without the five Gold counts answers each of them with 0. *)
Lemma sample_gold_counts_zero (res : result (option (list value))) :
  Forall (always_counts_zero (Sample.table_hook [(sql_gold_completeness, res)]))
         gold_count_queries.
Proof.
  repeat constructor; intros d; exists (VInt 0), []; (split; [reflexivity | apply num_eq_int]).
Qed.

(** C5.  The Gold completeness check compares with [>=]: in a warehouse
    whose Gold counts are 0 and whose completeness query yields [actual],
    the Gold gate passes if and only if [actual >= 95].  95.00 passes and
    94.99 fails. *)
Theorem completeness_passes_iff_at_least_95 :
  forall DB (PostgresHook : string -> Hook DB) w actual rest,
    Forall (always_counts_zero (PostgresHook POSTGRES_CONN_ID)) gold_count_queries ->
    always_answers (PostgresHook POSTGRES_CONN_ID) sql_gold_completeness
                   (Some (actual :: rest)) ->
    (passes (check_gold_quality_task DB PostgresHook) w <-> num_ge actual 95) /\
    (actual = VDec (mkDecimal 9500 2) ->
     fst (check_gold_quality_task DB PostgresHook w) = Returned tt) /\
    (actual = VDec (mkDecimal 9499 2) ->
     fst (check_gold_quality_task DB PostgresHook w)
     = Raised (AirflowException "❌ Data completeness FAILED: 94.99% (expected >= 95%)")).
Proof.
  intros DB PostgresHook w actual rest Hcounts Hans.
  destruct (gold_task_reaches_completeness DB PostgresHook w Hcounts) as [w5 Hw5].
  split; [|split].
  - unfold passes at 1. rewrite Hw5.
    apply (gold_completeness_check_passes_iff DB _ w5 (Some (actual :: rest))), Hans.
  - intros ->. rewrite Hw5, gold_completeness_check_eq; cbv zeta.
    now rewrite (Hans (db w5)).
  - intros ->. rewrite Hw5, gold_completeness_check_eq; cbv zeta.
    now rewrite (Hans (db w5)).
Qed.

Lemma completeness_passes_iff_at_least_95_witness :
  fst (check_gold_quality_task unit
         (fun _ => Sample.table_hook
                     [(sql_gold_completeness,
                       Returned (Some [VDec (mkDecimal 9499 2)]))])
         Sample.w0)
  = Raised (AirflowException "❌ Data completeness FAILED: 94.99% (expected >= 95%)").
Proof.
  apply (completeness_passes_iff_at_least_95 unit
           (fun _ => Sample.table_hook
                       [(sql_gold_completeness,
                         Returned (Some [VDec (mkDecimal 9499 2)]))])
           Sample.w0 (VDec (mkDecimal 9499 2)) []).
  - apply sample_gold_counts_zero.
  - intros d. reflexivity.
  - reflexivity.
Defined.

(** C10.  When the completeness query yields a row holding NULL, the Gold
    gate applies [<] to [None]: the task ends with a [TypeError] that
    nothing handles, not with the [AirflowException] of a failed assertion.
    The comparison is partial. *)
Theorem null_completeness_raises_type_error :
  forall DB (PostgresHook : string -> Hook DB) w rest,
    Forall (always_counts_zero (PostgresHook POSTGRES_CONN_ID)) gold_count_queries ->
    always_answers (PostgresHook POSTGRES_CONN_ID) sql_gold_completeness
                   (Some (VNone :: rest)) ->
    fst (check_gold_quality_task DB PostgresHook w)
    = Raised (TypeError
                "'<' not supported between instances of 'NoneType' and 'float'") /\
    (forall reason,
        fst (check_gold_quality_task DB PostgresHook w)
        <> Raised (AirflowException reason)) /\
    (forall b, lt_float VNone 95 <> inr b).
Proof.
  intros DB PostgresHook w rest Hcounts Hans.
  destruct (gold_task_reaches_completeness DB PostgresHook w Hcounts) as [w5 Hw5].
  assert (H : fst (check_gold_quality_task DB PostgresHook w)
              = Raised (TypeError
                  "'<' not supported between instances of 'NoneType' and 'float'")).
  { rewrite Hw5, gold_completeness_check_eq; cbv zeta. now rewrite (Hans (db w5)). }
  split; [exact H|]. split.
  - intros reason. rewrite H. discriminate.
  - intros b. discriminate.
Qed.

Lemma null_completeness_raises_type_error_witness :
  fst (check_gold_quality_task unit
         (fun _ => Sample.table_hook
                     [(sql_gold_completeness, Returned (Some [VNone]))])
         Sample.w0)
  = Raised (TypeError "'<' not supported between instances of 'NoneType' and 'float'").
Proof.
  apply (null_completeness_raises_type_error unit
           (fun _ => Sample.table_hook
                       [(sql_gold_completeness, Returned (Some [VNone]))])
           Sample.w0 []).
  - apply sample_gold_counts_zero.
  - intros d. reflexivity.
Defined.

(** C3, as the code has it.  In [run_quality_assertion] a query that yields
    no row, or a row holding NULL, ends in the failure kept for a missing
    value and never passes.  In the Gold completeness check a query that
    yields no row is read as 0: the gate fails with the reason of a failed
    comparison against 95 and never passes. *)
Theorem missing_value_never_passes :
  forall DB (PostgresHook : string -> Hook DB) (pg_hook : Hook DB) w,
    (forall test_name query arg,
        fst (hook_get_first pg_hook query (db w)) = Returned None \/
        (exists rest,
            fst (hook_get_first pg_hook query (db w)) = Returned (Some (VNone :: rest))) ->
        is_missing_result test_name
          (fst (run_quality_assertion pg_hook test_name query arg w)) /\
        ~ passes (run_quality_assertion pg_hook test_name query arg) w) /\
    (Forall (always_counts_zero (PostgresHook POSTGRES_CONN_ID)) gold_count_queries ->
     always_answers (PostgresHook POSTGRES_CONN_ID) sql_gold_completeness None ->
     fst (check_gold_quality_task DB PostgresHook w)
     = Raised (AirflowException "❌ Data completeness FAILED: 0% (expected >= 95%)") /\
     ~ passes (check_gold_quality_task DB PostgresHook) w).
Proof.
  intros DB PostgresHook pg_hook w. split.
  - intros test_name query arg Hans.
    assert (H : is_missing_result test_name
                  (fst (run_quality_assertion pg_hook test_name query arg w))).
    { unfold is_missing_result. rewrite run_quality_assertion_eq; cbv zeta.
      destruct Hans as [-> | [rest ->]]; reflexivity. }
    split; [exact H|]. intros [a Ha]. rewrite H in Ha. discriminate.
  - intros Hcounts Hans.
    destruct (gold_task_reaches_completeness DB PostgresHook w Hcounts) as [w5 Hw5].
    assert (H : fst (check_gold_quality_task DB PostgresHook w)
                = Raised (AirflowException
                            "❌ Data completeness FAILED: 0% (expected >= 95%)")).
    { rewrite Hw5, gold_completeness_check_eq; cbv zeta. now rewrite (Hans (db w5)). }
    split; [exact H|]. intros [a Ha]. rewrite H in Ha. discriminate.
Qed.

Lemma missing_value_never_passes_witness :
  fst (check_gold_quality_task unit
         (fun _ => Sample.table_hook [(sql_gold_completeness, Returned None)])
         Sample.w0)
  = Raised (AirflowException "❌ Data completeness FAILED: 0% (expected >= 95%)") /\
  ~ passes (check_gold_quality_task unit
              (fun _ => Sample.table_hook [(sql_gold_completeness, Returned None)]))
           Sample.w0.
Proof.
  apply (proj2 (missing_value_never_passes unit
                  (fun _ => Sample.table_hook [(sql_gold_completeness, Returned None)])
                  (Sample.table_hook [(sql_gold_completeness, Returned None)])
                  Sample.w0)).
  - apply sample_gold_counts_zero.
  - intros d. reflexivity.
Defined.

(** C3 as stated fails in the Gold completeness check: when its query
    yields no row, the gate ends exactly as it does when the query yields
    0, with the reason of a failed comparison and not with the failure kept
    for a missing value. *)
Lemma missing_row_is_read_as_zero :
  let no_row := Sample.table_hook [(sql_gold_completeness, Returned None)] in
  let zero := Sample.table_hook [(sql_gold_completeness, Returned (Some [VInt 0]))] in
  fst (hook_get_first no_row sql_gold_completeness tt) = Returned None /\
  check_gold_quality_task unit (fun _ => no_row) Sample.w0
  = check_gold_quality_task unit (fun _ => zero) Sample.w0 /\
  fst (check_gold_quality_task unit (fun _ => no_row) Sample.w0)
  = Raised (AirflowException "❌ Data completeness FAILED: 0% (expected >= 95%)") /\
  ~ is_missing_result "Data completeness"
      (fst (check_gold_quality_task unit (fun _ => no_row) Sample.w0)).
Proof.
  cbv zeta. split; [reflexivity|].
  split; [vm_compute; reflexivity|]. split; [vm_compute; reflexivity|].
  unfold is_missing_result. intros H. vm_compute in H. discriminate.
Qed.

(* ================================================================== *)
(** ** Quality gates *)

Section QualityGates.

Variable DB : Type.
Variable PostgresHook : string -> Hook DB.

Lemma assertion_check_footprint test_name query :
  check_footprint (assertion_check PostgresHook test_name query).
Proof.
  split; [reflexivity|]. split; [reflexivity|].
  intros w. unfold assertion_check, chk_body, chk_query, chk_announce.
  rewrite run_quality_assertion_eq; cbv zeta. unfold after_query.
  destruct (fst (hook_get_first _ query (db w))) as [res|e]; simpl.
  - destruct (is_None _); [exists []; now simpl|].
    destruct (ne_int _ _); [exists []; now simpl|].
    eexists; simpl. split; [reflexivity|].
    split; [rewrite <- app_assoc; reflexivity|]. split; reflexivity.
  - exists []; now simpl.
Qed.

Lemma gold_completeness_footprint :
  check_footprint
    (mkCheck "  → Checking: Data completeness (must be >= 95%)" sql_gold_completeness
             (gold_completeness_check (PostgresHook POSTGRES_CONN_ID))).
Proof.
  split; [reflexivity|]. split; [reflexivity|].
  intros w. unfold chk_body, chk_query, chk_announce.
  rewrite gold_completeness_check_eq; cbv zeta.
  destruct (fst (hook_get_first _ sql_gold_completeness (db w))) as [res|e]; simpl.
  - destruct (lt_float _ 95) as [te|[|]]; [exists []; now simpl | exists []; now simpl|].
    eexists; simpl. split; [reflexivity|].
    split; [rewrite <- app_assoc; reflexivity|]. split; reflexivity.
  - exists []; now simpl.
Qed.

(** Checks run one after the other are evaluated in order, up to the first
    that does not pass. *)
Lemma run_checks_fail_fast (cs : list (Check DB)) :
  Forall check_footprint cs -> fail_fast (run_checks cs) cs.
Proof.
  induction 1 as [|c rest (Hann & Hmark & Hc) _ IH]; intros w.
  - exists 0%nat, [], []. simpl. rewrite !app_nil_r. repeat split; reflexivity.
  - destruct (Hc w) as (lines & Hcalls & Hout & Hl1 & Hl2).
    cbn [run_checks].
    destruct (chk_body c w) as [[[]|e] w1] eqn:E; simpl in Hcalls, Hout, Hl2;
      [rewrite (bind_returned DB _ _ _ _ _ E) | rewrite (bind_raised DB _ _ _ _ _ E)].
    + destruct (IH w1) as (k & nc & nl & Hk & Hc' & Ho' & Hq & Ha & Hres).
      exists (S k), (GetFirst (chk_query c) :: nc), (chk_announce c :: lines ++ nl)%list.
      split; [simpl; lia|].
      split; [rewrite Hc', Hcalls, <- app_assoc; reflexivity|].
      split; [rewrite Ho', Hout, <- app_assoc; reflexivity|].
      split; [simpl; now rewrite Hq|].
      assert (Hpm : List.length (pass_marks (chk_announce c :: lines ++ nl))
                    = S (List.length (pass_marks nl))).
      { unfold pass_marks in *. cbn [filter]. rewrite Hmark, filter_app, length_app, Hl2.
        reflexivity. }
      split.
      { unfold announcements in *. cbn [filter]. rewrite Hann, filter_app, Hl1, Ha.
        reflexivity. }
      destruct (fst (run_checks rest w1)) as [[]|e].
      * destruct Hres as [-> Hp]. split; [reflexivity|]. now rewrite Hpm, Hp.
      * destruct Hres as (Hpos & Hp & c' & w' & Hnth & Hbody).
        split; [lia|]. split; [rewrite Hpm, Hp; lia|].
        exists c', w'. split; [|exact Hbody].
        replace (S k - 1)%nat with (S (k - 1)) by lia. exact Hnth.
    + exists 1%nat, [GetFirst (chk_query c)], (chk_announce c :: lines).
      split; [simpl; lia|]. split; [exact Hcalls|]. split; [exact Hout|].
      split; [reflexivity|].
      split.
      { unfold announcements in *. cbn [filter]. now rewrite Hann, Hl1. }
      simpl fst. split; [lia|].
      split.
      { unfold pass_marks in *. cbn [filter]. now rewrite Hmark, Hl2. }
      exists c, w. split; [reflexivity | exact E].
Qed.

(** Lines that neither announce a check nor mark one passed may surround
    the checks. *)
Lemma fail_fast_framed (a b c d : string) (m : M DB unit) (cs : list (Check DB)) :
  announcements [a; b; c; d] = [] -> pass_marks [a; b; c; d] = [] ->
  fail_fast m cs ->
  fail_fast (print a ;; print b ;; m ;; print c ;; print d) cs.
Proof.
  intros Hann Hpm H w.
  unfold announcements, pass_marks in Hann, Hpm. cbn [filter] in Hann, Hpm.
  destruct (prefix "  → " a) eqn:Aa; [discriminate|].
  destruct (prefix "  → " b) eqn:Ab; [discriminate|].
  destruct (prefix "  → " c) eqn:Ac; [discriminate|].
  destruct (prefix "  → " d) eqn:Ad; [discriminate|].
  destruct (prefix "    ✓ PASS" a) eqn:Pa; [discriminate|].
  destruct (prefix "    ✓ PASS" b) eqn:Pb; [discriminate|].
  destruct (prefix "    ✓ PASS" c) eqn:Pc; [discriminate|].
  destruct (prefix "    ✓ PASS" d) eqn:Pd; [discriminate|].
  set (w2 := mkWorld (db w) ((stdout w ++ [a]) ++ [b]) (calls w)).
  destruct (H w2) as (k & nc & nl & Hk & Hc' & Ho' & Hq & Ha & Hres).
  assert (Eq : (print a ;; print b ;; m ;; print c ;; print d) w
               = match m w2 with
                 | (Returned _, w3) =>
                     (Returned tt, mkWorld (db w3) ((stdout w3 ++ [c]) ++ [d]) (calls w3))
                 | (Raised e, w3) => (Raised e, w3)
                 end).
  { unfold bind, print; simpl. fold w2. destruct (m w2) as [[[]|e] w3]; reflexivity. }
  rewrite Eq. destruct (m w2) as [[[]|e] w3]; simpl in *.
  - exists k, nc, (a :: b :: nl ++ [c; d])%list.
    split; [exact Hk|]. split; [exact Hc'|].
    split; [rewrite Ho', <- !app_assoc; reflexivity|].
    split; [exact Hq|].
    split.
    { unfold announcements in *. cbn [filter]. rewrite Aa, Ab, filter_app, Ha.
      cbn [filter]. rewrite Ac, Ad. apply app_nil_r. }
    destruct Hres as [-> Hp]. split; [reflexivity|].
    unfold pass_marks in *. cbn [filter]. rewrite Pa, Pb, filter_app, length_app, Hp.
    cbn [filter]. rewrite Pc, Pd. simpl. lia.
  - exists k, nc, (a :: b :: nl)%list.
    split; [exact Hk|]. split; [exact Hc'|].
    split; [rewrite Ho', <- !app_assoc; reflexivity|].
    split; [exact Hq|].
    split.
    { unfold announcements in *. cbn [filter]. now rewrite Aa, Ab. }
    destruct Hres as (Hpos & Hp & c' & w' & Hnth & Hbody).
    split; [exact Hpos|]. split.
    { unfold pass_marks in *. cbn [filter]. now rewrite Pa, Pb. }
    now exists c', w'.
Qed.

Lemma fail_fast_ext (t1 t2 : M DB unit) (cs : list (Check DB)) :
  (forall w, t1 w = t2 w) -> fail_fast t1 cs -> fail_fast t2 cs.
Proof. intros E H w. rewrite <- (E w). apply H. Qed.

Ltac case_checks :=
  repeat match goal with
         | |- context [run_quality_assertion ?h ?n ?q ?a ?w] =>
             destruct (run_quality_assertion h n q a w) as [[[]|?] ?];
             cbn [fst snd]; try reflexivity
         | |- context [gold_completeness_check ?h ?w] =>
             destruct (gold_completeness_check h w) as [[[]|?] ?];
             cbn [fst snd]; try reflexivity
         end.

(** The Silver gate is its three assertions between two pairs of lines. *)
Lemma check_silver_quality_task_checks w :
  check_silver_quality_task DB PostgresHook w
  = (print "🔍 Executing Silver Layer Quality Assertions..." ;;
     print (str_mul "=" 60) ;;
     run_checks (silver_checks PostgresHook) ;;
     print (str_mul "=" 60) ;;
     print "✓ All Silver quality assertions passed") w.
Proof.
  unfold check_silver_quality_task, silver_checks, assertion_check, run_checks.
  cbv zeta. unfold chk_body, bind, ret, print. cbn [fst snd db stdout calls].
  case_checks.
Qed.

(** The Gold gate is its six checks between two pairs of lines. *)
Lemma check_gold_quality_task_checks w :
  check_gold_quality_task DB PostgresHook w
  = (print "🔍 Executing Gold Layer Quality Assertions..." ;;
     print (str_mul "=" 60) ;;
     run_checks (gold_checks PostgresHook) ;;
     print (str_mul "=" 60) ;;
     print "✓ All Gold quality assertions passed") w.
Proof.
  unfold check_gold_quality_task, gold_checks, assertion_check, run_checks.
  cbv zeta. unfold chk_body, bind, ret, print. cbn [fst snd db stdout calls].
  case_checks.
Qed.

Lemma silver_checks_footprint : Forall check_footprint (silver_checks PostgresHook).
Proof. repeat constructor; apply assertion_check_footprint. Qed.

Lemma gold_checks_footprint : Forall check_footprint (gold_checks PostgresHook).
Proof.
  repeat constructor;
    solve [apply assertion_check_footprint | apply gold_completeness_footprint].
Qed.

(** C2.  Both quality gates evaluate their assertions in the declared order
    and stop at the first that fails, whether by a failed comparison, a
    missing value or an error of the query: the assertions announced and
    the queries sent are the declared ones up to the failing one, in order;
    only the assertions before it are marked passed; and the exception the
    task raises, and the world it leaves, are those of the failing
    assertion. *)
Theorem quality_gates_fail_fast :
  fail_fast (check_silver_quality_task DB PostgresHook) (silver_checks PostgresHook) /\
  fail_fast (check_gold_quality_task DB PostgresHook) (gold_checks PostgresHook).
Proof.
  split.
  - eapply fail_fast_ext; [intros w; symmetry; apply check_silver_quality_task_checks|].
    apply fail_fast_framed; [reflexivity | reflexivity |].
    apply run_checks_fail_fast, silver_checks_footprint.
  - eapply fail_fast_ext; [intros w; symmetry; apply check_gold_quality_task_checks|].
    apply fail_fast_framed; [reflexivity | reflexivity |].
    apply run_checks_fail_fast, gold_checks_footprint.
Qed.

End QualityGates.

(** The Silver gate on a warehouse whose second count is 3: the first two
    queries are sent, the first assertion is marked passed, and the third
    is neither announced nor queried. *)
Example silver_gate_stops_at_second_assertion :
  let pg_hook :=
    Sample.table_hook [(sql_silver_null_customer_ids, Returned (Some [VInt 3]))] in
  let end_of_task := check_silver_quality_task unit (fun _ => pg_hook) Sample.w0 in
  fst end_of_task
  = Raised (AirflowException
              "❌ No NULL customer IDs in silver.crm_cust_info FAILED: Expected 0, got 3") /\
  get_first_queries (calls (snd end_of_task))
  = [sql_silver_dup_customers; sql_silver_null_customer_ids] /\
  announcements (stdout (snd end_of_task))
  = ["  → Running: No duplicate customers in silver.crm_cust_info";
     "  → Running: No NULL customer IDs in silver.crm_cust_info"] /\
  pass_marks (stdout (snd end_of_task)) = ["    ✓ PASS: 0 (expected: 0)"].
Proof. cbv zeta. split; [|split; [|split]]; vm_compute; reflexivity. Qed.

(* ================================================================== *)
(** ** Scheduling a chain *)

Section Scheduler.

Variable DB : Type.
Implicit Types (t u : Task DB) (ts pre post : list (Task DB)) (w : World DB).
Implicit Types (sts dec rest : list (string * State)) (x y : string).

Local Open Scope list_scope.

Local Abbreviation ids := (map (@task_id DB)).

(** *** Task instances *)

Lemma state_of_head x s rest : state_of ((x, s) :: rest) x = s.
Proof. unfold state_of; simpl. now rewrite String.eqb_refl. Qed.

Lemma state_of_app_notin dec rest x :
  ~ In x (map fst dec) -> state_of (dec ++ rest) x = state_of rest x.
Proof.
  induction dec as [|[y s] dec IH]; simpl; intros H; [reflexivity|].
  unfold state_of in *; simpl.
  destruct (String.eqb_spec y x) as [->|_]; [tauto|].
  apply IH. tauto.
Qed.

Lemma state_of_mark_in (s : State) ts rest x :
  In x (ids ts) -> state_of (mark s ts ++ rest) x = s.
Proof.
  induction ts as [|t ts IH]; simpl; intros H; [tauto|].
  unfold state_of in *; simpl.
  destruct (String.eqb_spec (task_id t) x) as [_|n]; [reflexivity|].
  apply IH. destruct H; [contradiction | assumption].
Qed.

Lemma state_of_decided dec rest x :
  In x (map fst dec) ->
  Forall (fun p => is_pending (snd p) = false) dec ->
  is_pending (state_of (dec ++ rest) x) = false.
Proof.
  induction dec as [|[y s] dec IH]; simpl; intros H F; [tauto|].
  inversion F as [|? ? Hs F']; subst.
  unfold state_of in *; simpl.
  destruct (String.eqb_spec y x) as [_|n]; [exact Hs|].
  apply IH; [|exact F']. destruct H; [contradiction | assumption].
Qed.

Lemma set_state_notin sts x s :
  ~ In x (map fst sts) -> set_state sts x s = sts.
Proof.
  induction sts as [|[y s0] sts IH]; simpl; intros H; [reflexivity|].
  destruct (String.eqb_spec y x) as [->|_]; [tauto|].
  f_equal. apply IH. tauto.
Qed.

Lemma set_state_here dec rest x s0 s :
  ~ In x (map fst dec) -> ~ In x (map fst rest) ->
  set_state (dec ++ (x, s0) :: rest) x s = dec ++ (x, s) :: rest.
Proof.
  intros Hd Hr. unfold set_state. rewrite map_app. simpl.
  rewrite String.eqb_refl. f_equal; [apply set_state_notin, Hd|].
  f_equal. apply set_state_notin, Hr.
Qed.

Lemma mark_ids (s : State) ts : map fst (mark s ts) = ids ts.
Proof. unfold mark. rewrite map_map. reflexivity. Qed.

Lemma mark_app (s : State) ts ts' : mark s (ts ++ ts') = mark s ts ++ mark s ts'.
Proof. apply map_app. Qed.

(** *** Edges of a chain *)

Lemma chain_of_edges t0 ts (acc : list Edge) :
  fst (fold_left rshift ts (acc, t0)) = acc ++ chain_edges (ids (t0 :: ts)).
Proof.
  revert acc t0. induction ts as [|t ts IH]; intros acc t0.
  - simpl. now rewrite app_nil_r.
  - cbn [fold_left]. unfold rshift at 2. cbn [fst snd]. rewrite IH.
    rewrite <- app_assoc. reflexivity.
Qed.

Lemma chain_dag_edges ts : dag_edges (chain_dag ts) = chain_edges (ids ts).
Proof.
  destruct ts as [|t0 ts]; [reflexivity|].
  unfold chain_dag, chain_of, start; cbn [dag_edges]. apply chain_of_edges.
Qed.

Lemma upstream_none x (l : list string) :
  ~ In x (tl l) -> upstream_ids (chain_edges l) x = [].
Proof.
  induction l as [|a l IH]; intros H; [reflexivity|].
  destruct l as [|b l]; [reflexivity|].
  cbn [chain_edges]. unfold upstream_ids in *. cbn [filter snd].
  destruct (String.eqb_spec b x) as [->|_]; [elim H; now left|].
  apply IH. simpl in *. tauto.
Qed.

Lemma upstream_chain x (p q : list string) :
  NoDup (p ++ x :: q) -> p <> [] ->
  upstream_ids (chain_edges (p ++ x :: q)) x = [last p x].
Proof.
  induction p as [|a p IH]; intros ND Hp; [congruence|].
  destruct p as [|b p].
  - simpl app. cbn [chain_edges]. unfold upstream_ids. cbn [filter snd map fst].
    rewrite String.eqb_refl. cbn [map fst]. f_equal.
    apply (upstream_none x (x :: q)). simpl.
    inversion ND as [|? ? _ ND']; subst. now inversion ND'.
  - change ((a :: b :: p) ++ x :: q) with (a :: b :: (p ++ x :: q)).
    cbn [chain_edges]. unfold upstream_ids. cbn [filter snd].
    inversion ND as [|? ? _ ND']; subst.
    destruct (String.eqb_spec b x) as [->|_].
    + inversion ND' as [|? ? Hin _]; subst. elim Hin. apply in_or_app. right. now left.
    + change (last (a :: b :: p) x) with (last (b :: p) x).
      apply (IH ND'). discriminate.
Qed.

Lemma last_in (d : string) (l : list string) : l <> [] -> In (last l d) l.
Proof.
  induction l as [|a l IH]; [congruence|]. intros _.
  destruct l as [|b l]; [now left|]. right. apply IH. discriminate.
Qed.

Lemma last_app_cons (d a : string) (l1 l2 : list string) :
  last (l1 ++ a :: l2) d = last (a :: l2) d.
Proof.
  induction l1 as [|b l1 IH]; [reflexivity|].
  simpl app. destruct (l1 ++ a :: l2) eqn:E; [now destruct l1|].
  rewrite <- IH. reflexivity.
Qed.

Lemma find_skip {A} (f : A -> bool) (l1 : list A) (a : A) (l2 : list A) :
  (forall b, In b l1 -> f b = false) -> f a = true ->
  find f (l1 ++ a :: l2) = Some a.
Proof.
  intros H1 Ha. induction l1 as [|b l1 IH]; simpl.
  - now rewrite Ha.
  - rewrite (H1 b) by now left. apply IH. intros c Hc. apply H1. now right.
Qed.

Lemma nodup_mid pre t post :
  NoDup (ids (pre ++ t :: post)) ->
  ~ In (task_id t) (ids pre) /\ ~ In (task_id t) (ids post).
Proof.
  rewrite map_app. cbn [map]. intros ND. apply NoDup_remove_2 in ND.
  split; intros H; apply ND, in_or_app; [now left | now right].
Qed.

(** *** Decisions of the scheduler on a chain *)

Lemma decide_chain pre t post sts :
  NoDup (ids (pre ++ t :: post)) ->
  decide (chain_dag (pre ++ t :: post)) sts t =
  match pre with
  | [] => Execute
  | _ =>
      if is_succeeded (state_of sts (last (ids pre) (task_id t))) then Execute
      else if is_failed_or_skipped (state_of sts (last (ids pre) (task_id t)))
           then SetAside else Wait
  end.
Proof.
  intros ND. unfold decide. rewrite chain_dag_edges.
  rewrite map_app in *. cbn [map] in *. destruct pre as [|u pre].
  - simpl app. rewrite upstream_none; [reflexivity|].
    simpl in *. now inversion ND.
  - rewrite upstream_chain by (assumption || discriminate).
    cbn [forallb existsb]. now rewrite andb_true_r, orb_false_r.
Qed.

Lemma decide_chain_after pre t post sts :
  NoDup (ids (pre ++ t :: post)) -> pre <> [] ->
  decide (chain_dag (pre ++ t :: post)) sts t =
  if is_succeeded (state_of sts (last (ids pre) (task_id t))) then Execute
  else if is_failed_or_skipped (state_of sts (last (ids pre) (task_id t)))
       then SetAside else Wait.
Proof.
  intros ND Hne. rewrite decide_chain by assumption. now destruct pre.
Qed.

Lemma nodup_disjoint (l1 l2 : list string) x :
  NoDup (l1 ++ l2) -> In x l2 -> ~ In x l1.
Proof.
  induction l1 as [|a l1 IH]; simpl; intros ND H2 H1; [contradiction|].
  inversion ND as [|? ? Hna ND']; subst.
  destruct H1 as [->|H1]; [|now apply (IH ND' H2)].
  apply Hna, in_or_app. now right.
Qed.

(** With everything before it succeeded, the next task of the chain is
    executed. *)
Lemma step_executes pre t post ran w :
  NoDup (ids (pre ++ t :: post)) ->
  step (chain_dag (pre ++ t :: post))
       (mkDagRun (mark Succeeded pre ++ mark Pending (t :: post)) ran w)
  = Some (mkDagRun
            (mark Succeeded pre ++
             (task_id t,
              match fst (python_callable t w) with
              | Returned _ => Succeeded
              | Raised e => Failed e
              end) :: mark Pending post)
            (ran ++ [task_id t]) (snd (python_callable t w))).
Proof.
  intros ND. destruct (nodup_mid _ _ _ ND) as [Hpre Hpost].
  set (sts := mark Succeeded pre ++ mark Pending (t :: post)).
  assert (Hdec : decide (chain_dag (pre ++ t :: post)) sts t = Execute).
  { rewrite decide_chain by assumption. destruct pre as [|u pre]; [reflexivity|].
    unfold sts. rewrite state_of_mark_in; [reflexivity|].
    apply last_in. discriminate. }
  assert (Hfind : find (actionable (chain_dag (pre ++ t :: post)) sts) (pre ++ t :: post)
                  = Some t).
  { apply find_skip.
    - intros b Hb. unfold actionable, sts.
      rewrite state_of_mark_in by (apply in_map, Hb). reflexivity.
    - unfold actionable. rewrite Hdec. unfold sts.
      rewrite state_of_app_notin by (now rewrite mark_ids).
      cbn [mark map]. now rewrite state_of_head. }
  unfold step. cbn [dag_tasks chain_dag ti_states world executed].
  fold sts. rewrite Hfind, Hdec.
  destruct (python_callable t w) as [res w']. cbn [fst snd]. unfold sts.
  change (mark Pending (t :: post)) with ((task_id t, Pending) :: mark Pending post).
  rewrite set_state_here; [reflexivity | | ]; now rewrite mark_ids.
Qed.

Lemma state_after_failure pre f (e : exn) mid rest x :
  In x (ids (f :: mid)) -> ~ In x (ids pre) ->
  state_of (mark Succeeded pre ++ (task_id f, Failed e) :: mark Skipped mid ++ rest) x
  = Failed e \/
  state_of (mark Succeeded pre ++ (task_id f, Failed e) :: mark Skipped mid ++ rest) x
  = Skipped.
Proof.
  intros Hin Hpre. rewrite state_of_app_notin by (now rewrite mark_ids).
  destruct (String.eqb_spec (task_id f) x) as [<-|n].
  - left. apply state_of_head.
  - right. unfold state_of. cbn [find fst].
    destruct (String.eqb_spec (task_id f) x) as [|_]; [contradiction|].
    change (state_of (mark Skipped mid ++ rest) x = Skipped).
    apply state_of_mark_in. destruct Hin; [contradiction | assumption].
Qed.

(** Behind a failed task, the next task of the chain is set aside. *)
Lemma step_sets_aside pre f (e : exn) mid t post ran w :
  NoDup (ids (pre ++ f :: mid ++ t :: post)) ->
  step (chain_dag (pre ++ f :: mid ++ t :: post))
       (mkDagRun (mark Succeeded pre ++ (task_id f, Failed e)
                    :: mark Skipped mid ++ mark Pending (t :: post)) ran w)
  = Some (mkDagRun (mark Succeeded pre ++ (task_id f, Failed e)
                      :: mark Skipped (mid ++ [t]) ++ mark Pending post) ran w).
Proof.
  intros ND.
  set (dec := mark Succeeded pre ++ (task_id f, Failed e) :: mark Skipped mid).
  set (before := pre ++ f :: mid).
  assert (Ets : pre ++ f :: mid ++ t :: post = before ++ t :: post).
  { unfold before. now rewrite <- app_assoc. }
  assert (Ests : mark Succeeded pre ++ (task_id f, Failed e)
                   :: mark Skipped mid ++ mark Pending (t :: post)
                 = dec ++ mark Pending (t :: post)).
  { unfold dec. now rewrite <- app_assoc. }
  assert (Hids : map fst dec = ids before).
  { unfold dec, before. rewrite !map_app. cbn [map fst]. now rewrite !mark_ids. }
  assert (Hdecided : Forall (fun p => is_pending (snd p) = false) dec).
  { unfold dec, mark. apply Forall_app. split; [|constructor; [reflexivity|]];
      apply Forall_forall; intros p Hp; apply in_map_iff in Hp;
      destruct Hp as (u & <- & _); reflexivity. }
  rewrite Ets in ND |- *. destruct (nodup_mid _ _ _ ND) as [Hpre Hpost].
  rewrite Ests. set (sts := dec ++ mark Pending (t :: post)).
  assert (Hdec : decide (chain_dag (before ++ t :: post)) sts t = SetAside).
  { rewrite decide_chain_after by (assumption || (unfold before; now destruct pre)).
    assert (Hl1 : In (last (ids before) (task_id t)) (ids (f :: mid))).
    { unfold before. rewrite map_app. cbn [map]. rewrite last_app_cons.
      apply last_in. discriminate. }
    assert (Hl2 : ~ In (last (ids before) (task_id t)) (ids pre)).
    { apply (nodup_disjoint (ids pre) (ids (f :: mid))); [|exact Hl1].
      pose proof ND as ND0. rewrite map_app in ND0.
      apply NoDup_app_remove_r in ND0. unfold before in ND0.
      now rewrite map_app in ND0. }
    unfold sts, dec. rewrite <- app_assoc. cbn [app].
    destruct (state_after_failure pre f e mid (mark Pending (t :: post)) _ Hl1 Hl2)
      as [-> | ->]; reflexivity. }
  assert (Hfind : find (actionable (chain_dag (before ++ t :: post)) sts)
                       (before ++ t :: post) = Some t).
  { apply find_skip.
    - intros b Hb. unfold actionable, sts.
      rewrite state_of_decided; [reflexivity | | exact Hdecided].
      rewrite Hids. apply in_map, Hb.
    - unfold actionable. rewrite Hdec. unfold sts.
      rewrite state_of_app_notin by (now rewrite Hids).
      cbn [mark map]. now rewrite state_of_head. }
  unfold step. cbn [dag_tasks chain_dag ti_states world executed].
  rewrite Hfind, Hdec. unfold sts.
  change (mark Pending (t :: post)) with ((task_id t, Pending) :: mark Pending post).
  rewrite set_state_here; [ | now rewrite Hids | now rewrite mark_ids].
  do 2 f_equal. unfold dec. rewrite mark_app, <- !app_assoc. reflexivity.
Qed.

(** *** Running a chain *)

(** Once a task has failed, the remaining tasks are set aside one by one
    and nothing else happens. *)
Lemma schedule_after_failure post :
  forall pre f (e : exn) mid ran w,
    NoDup (ids (pre ++ f :: mid ++ post)) ->
    schedule (List.length post) (chain_dag (pre ++ f :: mid ++ post))
             (mkDagRun (mark Succeeded pre ++ (task_id f, Failed e)
                          :: mark Skipped mid ++ mark Pending post) ran w)
    = mkDagRun (mark Succeeded pre ++ (task_id f, Failed e) :: mark Skipped (mid ++ post))
               ran w.
Proof.
  induction post as [|t post IH]; intros pre f e mid ran w ND.
  - cbn [schedule List.length mark map]. now rewrite !app_nil_r.
  - cbn [schedule List.length]. rewrite step_sets_aside by assumption.
    assert (E : mid ++ t :: post = (mid ++ [t]) ++ post) by now rewrite <- app_assoc.
    rewrite E in *. apply IH, ND.
Qed.

(** The scheduler runs a chain as [run_in_order] does. *)
Lemma schedule_chain post :
  forall pre ran w,
    NoDup (ids (pre ++ post)) ->
    schedule (List.length post) (chain_dag (pre ++ post))
             (mkDagRun (mark Succeeded pre ++ mark Pending post) ran w)
    = let '(sts, ran', w') := run_in_order post w in
      mkDagRun (mark Succeeded pre ++ sts) (ran ++ ran') w'.
Proof.
  induction post as [|t post IH]; intros pre ran w ND.
  - cbn. now rewrite !app_nil_r.
  - cbn [schedule List.length run_in_order]. rewrite step_executes by assumption.
    destruct (python_callable t w) as [[[]|e] w']; cbn [fst snd].
    + assert (E : pre ++ t :: post = (pre ++ [t]) ++ post) by now rewrite <- app_assoc.
      assert (Es : mark Succeeded pre ++ (task_id t, Succeeded) :: mark Pending post
                   = mark Succeeded (pre ++ [t]) ++ mark Pending post).
      { rewrite mark_app, <- app_assoc. reflexivity. }
      rewrite E in *. rewrite Es, IH by assumption.
      destruct (run_in_order post w') as [[sts ran'] w''].
      rewrite mark_app, <- !app_assoc. reflexivity.
    + apply (schedule_after_failure post pre t e [] (ran ++ [task_id t]) w'), ND.
Qed.

(** Scheduling a chain of distinct tasks is running them in order. *)
Lemma run_dag_chain ts w :
  NoDup (ids ts) ->
  run_dag (chain_dag ts) w
  = let '(sts, ran, w') := run_in_order ts w in mkDagRun sts ran w'.
Proof.
  intros ND. unfold run_dag. cbn [dag_tasks chain_dag].
  apply (schedule_chain ts [] [] w ND).
Qed.

(** *** What [run_in_order] guarantees *)


Lemma run_in_order_prefix ts w :
  exists k, snd (fst (run_in_order ts w)) = firstn k (ids ts).
Proof.
  revert w. induction ts as [|t ts IH]; intros w; [now exists 0%nat|].
  cbn [run_in_order]. destruct (python_callable t w) as [[[]|e] w'].
  - destruct (IH w') as [k Hk]. destruct (run_in_order ts w') as [[sts ran] w''].
    exists (S k). cbn in *. now rewrite Hk.
  - now exists 1%nat.
Qed.





End Scheduler.

(** The DAG of the source is the chain of its five tasks. *)
Lemma pipeline_is_chain DB (PostgresHook : string -> Hook DB) fs :
  sql_data_warehouse_pipeline_with_assertions PostgresHook fs
  = chain_dag (dag_tasks (sql_data_warehouse_pipeline_with_assertions PostgresHook fs)).
Proof. reflexivity. Qed.

Lemma pipeline_task_ids DB (PostgresHook : string -> Hook DB) fs :
  map task_id (dag_tasks (sql_data_warehouse_pipeline_with_assertions PostgresHook fs))
  = ["load_bronze"; "load_silver"; "check_silver_quality";
     "create_gold_views"; "check_gold_quality"].
Proof. reflexivity. Qed.

Lemma pipeline_ids_nodup DB (PostgresHook : string -> Hook DB) fs :
  NoDup (map task_id
           (dag_tasks (sql_data_warehouse_pipeline_with_assertions PostgresHook fs))).
Proof.
  rewrite pipeline_task_ids.
  repeat (constructor; [simpl; intuition discriminate|]). constructor.
Qed.

(** Whatever the warehouse answers, the stages of the pipeline that ran are
    an initial part of Bronze load, Silver load, Silver quality gate, Gold
    view creation, Gold quality gate. *)
Lemma pipeline_runs_in_declared_order DB (PostgresHook : string -> Hook DB) fs w :
  exists k,
    executed (run_dag (sql_data_warehouse_pipeline_with_assertions PostgresHook fs) w)
    = firstn k ["load_bronze"; "load_silver"; "check_silver_quality";
                "create_gold_views"; "check_gold_quality"].
Proof.
  rewrite pipeline_is_chain, run_dag_chain by apply pipeline_ids_nodup.
  destruct (run_in_order_prefix DB
              (dag_tasks (sql_data_warehouse_pipeline_with_assertions PostgresHook fs)) w)
    as [k Hk].
  destruct (run_in_order _ w) as [[sts ran] w']. now exists k.
Qed.

(** Scenario A of the specification: when every stage succeeds the run is
    completed and the five stages are reported as succeeded, in order. *)
Example all_stages_succeed :
  let r := run_dag (sql_data_warehouse_pipeline_with_assertions
                      (fun _ => Sample.counting_hook) Sample.fs)
                   (mkWorld 0%nat [] []) in
  ti_states r = [("load_bronze", Succeeded); ("load_silver", Succeeded);
                 ("check_silver_quality", Succeeded);
                 ("create_gold_views", Succeeded);
                 ("check_gold_quality", Succeeded)] /\
  run_outcome r = Completed.
Proof. cbv zeta. split; vm_compute; reflexivity. Qed.



(* ================================================================== *)
(** ** Running twice *)

Section Rerun.

Variable DB : Type.
Variable R : DB -> DB -> Prop.

Lemma respects_ret {A} (a : A) : respects R (ret a : M DB A).
Proof. intros w1 w2 H. now split. Qed.

Lemma respects_raise {A} (e : exn) : respects R (raise e : M DB A).
Proof. intros w1 w2 H. now split. Qed.

Lemma respects_print (line : string) : respects R (print line : M DB unit).
Proof.
  intros w1 w2 (Hd & Ho & Hc). split; [reflexivity|].
  unfold print, same_view; cbn. now rewrite Ho, Hc.
Qed.

Lemma respects_bind {A B} (m : M DB A) (k : A -> M DB B) :
  respects R m -> (forall a, respects R (k a)) -> respects R (bind m k).
Proof.
  intros Hm Hk w1 w2 H. unfold bind.
  destruct (Hm w1 w2 H) as [Hr Hw].
  destruct (m w1) as [[a1|e1] w1'], (m w2) as [[a2|e2] w2']; cbn in Hr, Hw;
    try discriminate.
  - injection Hr as <-. now apply Hk.
  - injection Hr as <-. now split.
Qed.

Lemma respects_get_first (pg_hook : Hook DB) (query : string) :
  read_stable R pg_hook -> respects R (get_first pg_hook query).
Proof.
  intros [Hq _] w1 w2 (Hd & Ho & Hc). unfold get_first.
  destruct (Hq query _ _ Hd) as [Hr Hd'].
  destruct (hook_get_first pg_hook query (db w1)) as [r1 d1],
           (hook_get_first pg_hook query (db w2)) as [r2 d2]; cbn in *.
  split; [exact Hr|]. unfold same_view; cbn. now rewrite Hc.
Qed.

Lemma respects_run (pg_hook : Hook DB) (sql : string) :
  read_stable R pg_hook -> respects R (run pg_hook sql).
Proof.
  intros [_ Hs] w1 w2 (Hd & Ho & Hc). unfold run.
  destruct (Hs sql _ _ Hd) as [Hr Hd'].
  destruct (hook_run pg_hook sql (db w1)) as [r1 d1],
           (hook_run pg_hook sql (db w2)) as [r2 d2]; cbn in *.
  split; [exact Hr|]. unfold same_view; cbn. now rewrite Hc.
Qed.

Ltac respects_steps :=
  repeat first
    [ apply respects_print
    | apply respects_ret
    | apply respects_raise
    | apply respects_get_first; assumption
    | apply respects_run; assumption
    | apply respects_bind; [|intros ?]
    | match goal with
      | |- respects _ (if ?b then _ else _) => destruct b
      | |- respects _ (match ?x with _ => _ end) => destruct x
      end ].

Lemma respects_run_quality_assertion (pg_hook : Hook DB) test_name query arg :
  read_stable R pg_hook ->
  respects R (run_quality_assertion pg_hook test_name query arg).
Proof. intros H. unfold run_quality_assertion. cbv zeta. respects_steps. Qed.

Lemma respects_gold_completeness_check (pg_hook : Hook DB) :
  read_stable R pg_hook -> respects R (gold_completeness_check pg_hook).
Proof. intros H. unfold gold_completeness_check. respects_steps. Qed.

Variable PostgresHook : string -> Hook DB.
Variable fs : string -> option string.
Hypothesis stable : read_stable R (PostgresHook POSTGRES_CONN_ID).

Lemma respects_read_sql_file path : respects R (read_sql_file fs path : M DB string).
Proof. unfold read_sql_file. destruct (fs path); cbv zeta; respects_steps. Qed.

Lemma respects_pipeline_tasks :
  Forall (fun t => respects R (python_callable t))
         (dag_tasks (sql_data_warehouse_pipeline_with_assertions PostgresHook fs)).
Proof.
  pose proof respects_run_quality_assertion as Hrqa.
  pose proof respects_gold_completeness_check as Hgcc.
  pose proof respects_read_sql_file as Hread.
  unfold sql_data_warehouse_pipeline_with_assertions. cbv zeta. cbn [dag_tasks].
  repeat apply Forall_cons; [ | | | | | apply Forall_nil]; cbn [python_callable].
  - unfold load_bronze_task. cbv zeta. respects_steps.
  - unfold load_silver_task. cbv zeta. respects_steps.
  - unfold check_silver_quality_task. cbv zeta.
    repeat first [ apply Hrqa; assumption | apply respects_print
                 | apply respects_bind; [|intros ?] ].
  - unfold create_gold_views_task. cbv zeta.
    repeat first [ apply Hread | apply respects_print | apply respects_run; assumption
                 | apply respects_bind; [|intros ?] ].
  - unfold check_gold_quality_task. cbv zeta.
    repeat first [ apply Hrqa; assumption | apply Hgcc; assumption | apply respects_print
                 | apply respects_bind; [|intros ?] ].
Qed.

(** The scheduler decides by the states of the task instances alone, so
    runs that start alike proceed alike. *)
Lemma schedule_respects (g : DAG DB) :
  Forall (fun t => respects R (python_callable t)) (dag_tasks g) ->
  forall fuel r1 r2,
    ti_states r1 = ti_states r2 -> executed r1 = executed r2 ->
    same_view R (world r1) (world r2) ->
    ti_states (schedule fuel g r1) = ti_states (schedule fuel g r2) /\
    executed (schedule fuel g r1) = executed (schedule fuel g r2) /\
    same_view R (world (schedule fuel g r1)) (world (schedule fuel g r2)).
Proof.
  intros Hg. induction fuel as [|fuel IH]; intros r1 r2 Hs He Hw; [now cbn|].
  cbn [schedule]. unfold step. rewrite <- Hs.
  destruct (find (actionable g (ti_states r1)) (dag_tasks g)) as [t|] eqn:Ef;
    [|split; [exact Hs | split; [exact He | exact Hw]]].
  apply find_some in Ef as [Hin _].
  assert (Ht : respects R (python_callable t))
    by (rewrite Forall_forall in Hg; now apply Hg).
  destruct (decide g (ti_states r1) t).
  - destruct (Ht _ _ Hw) as [Hr Hw'].
    destruct (python_callable t (world r1)) as [res1 w1'],
             (python_callable t (world r2)) as [res2 w2']; cbn in Hr, Hw'.
    subst res2. apply IH; cbn; [reflexivity | now rewrite He | exact Hw'].
  - apply IH; cbn; [reflexivity | exact He | exact Hw].
  - apply IH; cbn; [reflexivity | exact He | exact Hw].
Qed.

Lemma run_dag_respects (g : DAG DB) w1 w2 :
  Forall (fun t => respects R (python_callable t)) (dag_tasks g) ->
  same_view R w1 w2 ->
  report_of (run_dag g w1) = report_of (run_dag g w2).
Proof.
  intros Hg Hw. unfold run_dag.
  destruct (schedule_respects g Hg (List.length (dag_tasks g))
              (mkDagRun (map (fun t => (task_id t, Pending)) (dag_tasks g)) [] w1)
              (mkDagRun (map (fun t => (task_id t, Pending)) (dag_tasks g)) [] w2)
              eq_refl eq_refl Hw) as (Hs & He & Hd & Ho & Hc).
  unfold report_of, run_outcome. now rewrite Hs, Ho, Hc.
Qed.

End Rerun.

(** C8.  Two executions of the pipeline against a read-stable hook, started
    on warehouses the hook cannot tell apart and with the same log and
    trace, produce the same report: the same state for every stage, the same
    lines in the same order (the announcement and pass mark of every
    assertion among them), the same hook calls and the same outcome of the
    run. *)
Theorem rerun_gives_identical_report :
  forall DB (R : DB -> DB -> Prop) (PostgresHook : string -> Hook DB)
         (fs : string -> option string) (w1 w2 : World DB),
    read_stable R (PostgresHook POSTGRES_CONN_ID) ->
    same_view R w1 w2 ->
    report_of (run_dag (sql_data_warehouse_pipeline_with_assertions PostgresHook fs) w1)
    = report_of (run_dag (sql_data_warehouse_pipeline_with_assertions PostgresHook fs) w2).
Proof.
  intros DB R PostgresHook fs w1 w2 Hstable Hview.
  apply (run_dag_respects DB R); [|exact Hview].
  apply respects_pipeline_tasks, Hstable.
Qed.

Lemma rerun_gives_identical_report_witness :
  let pipeline :=
    sql_data_warehouse_pipeline_with_assertions (fun _ => Sample.counting_hook) Sample.fs in
  let first := run_dag pipeline (mkWorld 0%nat [] []) in
  let second := run_dag pipeline (mkWorld (db (world first)) [] []) in
  db (world first) = 3%nat /\
  rep_outcome (report_of first) = Completed /\
  report_of first = report_of second.
Proof.
  cbv zeta. split; [vm_compute; reflexivity|]. split; [vm_compute; reflexivity|].
  apply (rerun_gives_identical_report nat (fun _ _ => True)
           (fun _ => Sample.counting_hook) Sample.fs).
  - split; intros; (split; [reflexivity | exact I]).
  - split; [exact I | split; reflexivity].
Defined.

(* ================================================================== *)
(** ** The data tasks *)

Section DataTasks.

Variable DB : Type.
Variable PostgresHook : string -> Hook DB.
Variable fs : string -> option string.

Local Open Scope list_scope.

Lemma load_bronze_task_eq w :
  load_bronze_task DB PostgresHook w
  = one_statement (PostgresHook POSTGRES_CONN_ID)
      [ "📦 Executing Bronze Layer Load...";
        "   CRM Path: C:/Users/vlado/Desktop/SQL-project-last/SQL-Data-Warehouse-Project/data_sets/source_crm/";
        "   ERP Path: C:/Users/vlado/Desktop/SQL-project-last/SQL-Data-Warehouse-Project/data_sets/source_erp/" ]
      bronze_statement "✓ Bronze layer loaded successfully" w.
Proof.
  assert (E : ("CALL bronze.load_bronze('" ++ (replace_char "\" "/" CRM_PATH ++ "/")
                 ++ "', '" ++ (replace_char "\" "/" ERP_PATH ++ "/") ++ "');")%string
              = bronze_statement) by reflexivity.
  unfold load_bronze_task, one_statement. cbv zeta. rewrite E.
  unfold bind, print, run. cbn [db stdout calls].
  destruct (hook_run _ bronze_statement (db w)) as [[[]|e] d]; cbn [fst snd db stdout calls];
    rewrite <- !app_assoc; reflexivity.
Qed.

Lemma load_silver_task_eq w :
  load_silver_task DB PostgresHook w
  = one_statement (PostgresHook POSTGRES_CONN_ID)
                  [ "🔄 Executing Silver Layer Transformation..." ]
                  silver_statement "✓ Silver layer loaded successfully" w.
Proof.
  unfold load_silver_task, one_statement, silver_statement. cbv zeta.
  unfold bind, print, run. cbn [db stdout calls].
  destruct (hook_run _ _ (db w)) as [[[]|e] d]; reflexivity.
Qed.

Lemma create_gold_views_task_eq w :
  create_gold_views_task DB PostgresHook fs w
  = match fs gold_script_path with
    | Some sql_script =>
        one_statement (PostgresHook POSTGRES_CONN_ID)
                      [ "✓ Successfully loaded: ddl_gold.sql";
                        "⭐ Creating Gold Layer Views..." ]
                      sql_script "✓ Gold layer views created successfully" w
    | None =>
        (Raised (FileNotFoundError
                   ("✗ CRITICAL: SQL file not found at " ++ gold_script_path)),
         mkWorld (db w)
                 (stdout w ++ [("✗ CRITICAL: SQL file not found at "
                                  ++ gold_script_path)%string])
                 (calls w))
    end.
Proof.
  assert (E : path_join (path_join SQL_SCRIPTS_DIR "gold") "ddl_gold.sql"
              = gold_script_path) by reflexivity.
  unfold create_gold_views_task, read_sql_file, one_statement. cbv zeta. rewrite E.
  destruct (fs gold_script_path) as [script|]; [|reflexivity].
  unfold bind, print, run, ret. cbn [db stdout calls].
  destruct (hook_run _ script (db w)) as [[[]|e] d]; cbn [fst snd db stdout calls];
    rewrite <- !app_assoc; reflexivity.
Qed.

End DataTasks.

(** X1.  Each of the two load tasks sends exactly one statement to the
    warehouse, whatever happens: the [CALL] of its procedure, for Bronze
    with the two data-set paths written with forward slashes and a final
    slash.  The task ends as the hook ends on that statement, exception
    included, and leaves the warehouse the hook leaves. *)
Theorem load_tasks_send_one_statement :
  forall DB (PostgresHook : string -> Hook DB) (w : World DB),
    (calls (snd (load_bronze_task DB PostgresHook w))
     = (calls w ++ [Run bronze_statement])%list /\
     fst (load_bronze_task DB PostgresHook w)
     = fst (hook_run (PostgresHook POSTGRES_CONN_ID) bronze_statement (db w)) /\
     db (snd (load_bronze_task DB PostgresHook w))
     = snd (hook_run (PostgresHook POSTGRES_CONN_ID) bronze_statement (db w))) /\
    (calls (snd (load_silver_task DB PostgresHook w))
     = (calls w ++ [Run "CALL silver.load_silver();"])%list /\
     fst (load_silver_task DB PostgresHook w)
     = fst (hook_run (PostgresHook POSTGRES_CONN_ID) "CALL silver.load_silver();" (db w)) /\
     db (snd (load_silver_task DB PostgresHook w))
     = snd (hook_run (PostgresHook POSTGRES_CONN_ID) "CALL silver.load_silver();" (db w))).
Proof.
  intros DB PostgresHook w. split.
  - rewrite load_bronze_task_eq. unfold one_statement. cbv zeta.
    destruct (hook_run _ bronze_statement (db w)) as [[[]|e] d]; now cbn.
  - rewrite load_silver_task_eq. unfold one_statement, silver_statement. cbv zeta.
    destruct (hook_run _ _ (db w)) as [[[]|e] d]; now cbn.
Qed.

(** X2.  When the Gold script is not in the container,
    [create_gold_views_task] raises [FileNotFoundError] with a message that
    names the path, after printing that message; it sends nothing to the
    warehouse and leaves it untouched. *)
Theorem missing_gold_script_sends_nothing :
  forall DB (PostgresHook : string -> Hook DB) fs (w : World DB),
    fs "/opt/airflow/project_root/scripts/gold/ddl_gold.sql" = None ->
    let msg :=
      "✗ CRITICAL: SQL file not found at /opt/airflow/project_root/scripts/gold/ddl_gold.sql" in
    create_gold_views_task DB PostgresHook fs w
    = (Raised (FileNotFoundError msg),
       mkWorld (db w) (stdout w ++ [msg])%list (calls w)).
Proof.
  intros DB PostgresHook fs w Hfs msg. rewrite create_gold_views_task_eq.
  unfold gold_script_path. now rewrite Hfs.
Qed.

Lemma missing_gold_script_sends_nothing_witness :
  calls (snd (create_gold_views_task unit (fun _ => Sample.healthy_hook)
                Sample.empty_fs Sample.w0)) = [] /\
  is_returned (fst (create_gold_views_task unit (fun _ => Sample.healthy_hook)
                      Sample.empty_fs Sample.w0)) = false.
Proof.
  rewrite (missing_gold_script_sends_nothing unit (fun _ => Sample.healthy_hook)
             Sample.empty_fs Sample.w0 eq_refl).
  split; reflexivity.
Defined.

(** X3.  When the Gold script is in the container,
    [create_gold_views_task] sends its content, as read, as one statement
    and nothing else; the task ends as the hook ends on it, exception
    included. *)
Theorem gold_script_is_sent_as_read :
  forall DB (PostgresHook : string -> Hook DB) fs (w : World DB) sql_script,
    fs "/opt/airflow/project_root/scripts/gold/ddl_gold.sql" = Some sql_script ->
    calls (snd (create_gold_views_task DB PostgresHook fs w))
    = (calls w ++ [Run sql_script])%list /\
    fst (create_gold_views_task DB PostgresHook fs w)
    = fst (hook_run (PostgresHook POSTGRES_CONN_ID) sql_script (db w)) /\
    db (snd (create_gold_views_task DB PostgresHook fs w))
    = snd (hook_run (PostgresHook POSTGRES_CONN_ID) sql_script (db w)).
Proof.
  intros DB PostgresHook fs w sql_script Hfs. rewrite create_gold_views_task_eq.
  unfold gold_script_path. rewrite Hfs. unfold one_statement. cbv zeta.
  destruct (hook_run _ sql_script (db w)) as [[[]|e] d]; now cbn.
Qed.

Lemma gold_script_is_sent_as_read_witness :
  calls (snd (create_gold_views_task unit (fun _ => Sample.offline_hook)
                Sample.fs Sample.w0))
  = [Run "CREATE VIEW gold.dim_customers AS SELECT 1;"] /\
  fst (create_gold_views_task unit (fun _ => Sample.offline_hook) Sample.fs Sample.w0)
  = Raised (DatabaseError "connection refused").
Proof.
  destruct (gold_script_is_sent_as_read unit (fun _ => Sample.offline_hook)
              Sample.fs Sample.w0 "CREATE VIEW gold.dim_customers AS SELECT 1;" eq_refl)
    as (Hcalls & Hres & _).
  split; [exact Hcalls | exact Hres].
Defined.

(* ================================================================== *)
(** ** How a check can end *)

Lemma lt_float_true_iff (v : value) (n : Z) :
  lt_float v n = inr true <-> exists q, to_Q v = Some q /\ (q < inject_Z n)%Q.
Proof.
  destruct v as [|z|d|s]; simpl.
  - split; [discriminate | intros (q & Hq & _); discriminate].
  - split.
    + intros H. injection H as H. apply Z.ltb_lt in H.
      eexists; split; [reflexivity|]. now rewrite <- Zlt_Qlt.
    + intros (q & Hq & Hlt). injection Hq as <-. rewrite <- Zlt_Qlt in Hlt.
      f_equal. now apply Z.ltb_lt.
  - split.
    + intros H. injection H as H. apply Z.ltb_lt in H.
      eexists; split; [reflexivity|]. unfold Qlt; simpl. rewrite pow10_to_pos. lia.
    + intros (q & Hq & Hlt). injection Hq as <-.
      unfold Qlt in Hlt; simpl in Hlt. rewrite pow10_to_pos in Hlt.
      f_equal. apply Z.ltb_lt. lia.
  - split; [discriminate | intros (q & Hq & _); discriminate].
Qed.

Lemma lt_float_error_iff (v : value) (n : Z) :
  (exists e, lt_float v n = inl e) <-> to_Q v = None.
Proof.
  destruct v as [|z|d|s]; simpl; split; try discriminate; try reflexivity;
    try (intros [e H]; discriminate); intros _; eexists; reflexivity.
Qed.

(** X4.  [run_quality_assertion] sends its query exactly once, however it
    ends, and leaves the warehouse the query leaves.  An exception of the
    hook comes out unchanged, with the assertion announced and not marked
    passed.  Every other exception it raises is an [AirflowException] whose
    message starts with the cross mark and the name of the assertion. *)
Theorem run_quality_assertion_exceptions :
  forall DB (pg_hook : Hook DB) test_name query arg (w : World DB),
    calls (snd (run_quality_assertion pg_hook test_name query arg w))
    = (calls w ++ [GetFirst query])%list /\
    db (snd (run_quality_assertion pg_hook test_name query arg w))
    = snd (hook_get_first pg_hook query (db w)) /\
    (forall e,
        fst (hook_get_first pg_hook query (db w)) = Raised e ->
        fst (run_quality_assertion pg_hook test_name query arg w) = Raised e /\
        stdout (snd (run_quality_assertion pg_hook test_name query arg w))
        = (stdout w ++ [("  → Running: " ++ test_name)%string])%list) /\
    (forall e,
        fst (run_quality_assertion pg_hook test_name query arg w) = Raised e ->
        fst (hook_get_first pg_hook query (db w)) = Raised e \/
        exists rest, e = AirflowException ("❌ " ++ test_name ++ rest)).
Proof.
  intros DB pg_hook test_name query arg w.
  rewrite run_quality_assertion_eq; cbv zeta. unfold after_query.
  destruct (fst (hook_get_first pg_hook query (db w))) as [res|e0].
  - destruct (is_None _); [|destruct (ne_int _ _)]; cbn [fst snd calls db stdout];
      (split; [reflexivity|]); (split; [reflexivity|]);
      (split; [intros e He; discriminate|]); intros e He;
      try discriminate; injection He as <-; right; eexists; reflexivity.
  - cbn [fst snd calls db stdout].
    split; [reflexivity|]. split; [reflexivity|]. split.
    + intros e He. injection He as <-. now split.
    + intros e He. injection He as <-. now left.
Qed.

Lemma run_quality_assertion_exceptions_witness :
  fst (run_quality_assertion Sample.offline_hook
         "No NULL customer IDs in silver.crm_cust_info"
         sql_silver_null_customer_ids (Some 0) Sample.w0)
  = Raised (DatabaseError "connection refused") /\
  stdout (snd (run_quality_assertion Sample.offline_hook
                 "No NULL customer IDs in silver.crm_cust_info"
                 sql_silver_null_customer_ids (Some 0) Sample.w0))
  = ["  → Running: No NULL customer IDs in silver.crm_cust_info"].
Proof.
  apply (proj1 (proj2 (proj2 (run_quality_assertion_exceptions unit Sample.offline_hook
                                "No NULL customer IDs in silver.crm_cust_info"
                                sql_silver_null_customer_ids (Some 0) Sample.w0)))
           (DatabaseError "connection refused")).
  reflexivity.
Defined.

Lemma to_Q_none_iff (v : value) :
  to_Q v = None <-> v = VNone \/ exists s, v = VStr s.
Proof.
  destruct v as [|z|d|s]; simpl; split; try discriminate; auto.
  - intros [H|[s H]]; discriminate.
  - intros [H|[s H]]; discriminate.
  - intros _. right. now exists s.
Qed.

(** X5.  When its query is answered with no row or with a row whose first
    scalar is one of [value] (NULL, an integer, a finite Decimal or text),
    the completeness check raises an [AirflowException] exactly when the
    value it compares (0 for a missing row) is a number below 95, and a
    [TypeError] exactly when that value is NULL or text. *)
Theorem completeness_check_outcomes :
  forall DB (pg_hook : Hook DB) (w : World DB) res,
    fst (hook_get_first pg_hook sql_gold_completeness (db w)) = Returned res ->
    ((exists reason,
         fst (gold_completeness_check pg_hook w) = Raised (AirflowException reason))
     <-> exists q, to_Q (completeness_of res) = Some q /\ (q < inject_Z 95)%Q) /\
    ((exists msg, fst (gold_completeness_check pg_hook w) = Raised (TypeError msg))
     <-> completeness_of res = VNone \/ exists s, completeness_of res = VStr s).
Proof.
  intros DB pg_hook w res Hans.
  rewrite gold_completeness_check_eq; cbv zeta. rewrite Hans.
  fold (completeness_of res). rewrite <- to_Q_none_iff.
  pose proof (lt_float_true_iff (completeness_of res) 95) as Hlt.
  pose proof (lt_float_error_iff (completeness_of res) 95) as Herr.
  destruct (lt_float (completeness_of res) 95) as [te|[|]] eqn:E; cbn [fst].
  - assert (Hnone : to_Q (completeness_of res) = None)
      by (apply Herr; now exists te).
    assert (Hte : exists msg, te = TypeError msg)
      by (destruct (completeness_of res); simpl in E; try discriminate;
          injection E as <-; eexists; reflexivity).
    destruct Hte as [msg ->].
    split.
    + split; [intros [r H]; discriminate|].
      intros (q & Hq & _). rewrite Hnone in Hq. discriminate.
    + split; [intros _; exact Hnone | intros _; now exists msg].
  - destruct (proj1 Hlt eq_refl) as (q & Hq & Hq95).
    split.
    + split; [intros _; now exists q | intros _; eexists; reflexivity].
    + split; [intros [m H]; discriminate | intros H; rewrite H in Hq; discriminate].
  - split.
    + split; [intros [r H]; discriminate|].
      intros H. apply Hlt in H. discriminate.
    + split; [intros [m H]; discriminate|].
      intros H. apply Herr in H as [e He]. discriminate.
Qed.

Lemma completeness_check_outcomes_witness :
  exists msg,
    fst (gold_completeness_check
           (Sample.table_hook [(sql_gold_completeness, Returned (Some [VStr "n/a"]))])
           Sample.w0)
    = Raised (TypeError msg).
Proof.
  apply (proj2 (completeness_check_outcomes unit
                  (Sample.table_hook
                     [(sql_gold_completeness, Returned (Some [VStr "n/a"]))])
                  Sample.w0 (Some [VStr "n/a"]) eq_refl)).
  right. now exists "n/a".
Defined.

(* ================================================================== *)
(** ** When a gate passes *)

Lemma run_quality_assertion_always {DB} (pg_hook : Hook DB) test_name query arg res
    (w : World DB) :
  always_answers pg_hook query res ->
  (row_equals res (expected_of arg) /\
   exists w', run_quality_assertion pg_hook test_name query arg w = (Returned tt, w')) \/
  (~ row_equals res (expected_of arg) /\
   exists e w', run_quality_assertion pg_hook test_name query arg w = (Raised e, w')).
Proof.
  intros Hans.
  pose proof (run_quality_assertion_passes_iff DB pg_hook test_name query arg w) as Hp.
  rewrite (Hans (db w)) in Hp. unfold passes in Hp.
  destruct (run_quality_assertion pg_hook test_name query arg w) as [[[]|e] w'];
    cbn [fst] in Hp.
  - left. split; [|now exists w'].
    destruct (proj1 Hp (ex_intro _ tt eq_refl)) as (v & rest & Hr & Hn).
    injection Hr as ->. now exists v, rest.
  - right. split; [|now exists e, w'].
    intros (v & rest & -> & Hn).
    destruct (proj2 Hp) as [a Ha]; [now exists v, rest | discriminate].
Qed.

Ltac gate_step H :=
  match goal with
  | |- context [bind (run_quality_assertion ?h ?n ?q ?a) ?k ?w0] =>
      let Estep := fresh "Estep" in
      destruct (run_quality_assertion_always h n q a _ w0 H)
        as [[? (? & Estep)] | [? (? & ? & Estep)]];
      [ rewrite (bind_returned _ _ _ _ _ _ Estep); clear Estep
      | rewrite (bind_raised _ _ _ _ _ _ Estep);
        split;
        [ intros [? Hx]; discriminate
        | let F := fresh "F" in
          intros F; try (destruct F as [F _]); rewrite Forall_forall in F;
          match goal with
          | N : ~ row_equals _ _ |- _ => elim N; apply F; simpl; tauto
          end ] ]
  end.

(** X6.  In a warehouse that answers each Silver query the same in every
    state, the Silver gate passes if and only if each of its three queries
    yields a row whose first scalar equals 0. *)
Theorem silver_gate_passes_iff :
  forall DB (PostgresHook : string -> Hook DB)
         (answers : string -> option (list value)) (w : World DB),
    (forall q, In q silver_queries ->
               always_answers (PostgresHook POSTGRES_CONN_ID) q (answers q)) ->
    (passes (check_silver_quality_task DB PostgresHook) w <->
     Forall (fun q => row_equals (answers q) 0) silver_queries).
Proof.
  intros DB PostgresHook answers w Hall.
  pose proof (Hall _ (or_introl eq_refl)) as H1.
  pose proof (Hall _ (or_intror (or_introl eq_refl))) as H2.
  pose proof (Hall _ (or_intror (or_intror (or_introl eq_refl)))) as H3.
  unfold passes, check_silver_quality_task. cbv zeta.
  rewrite (bind_returned DB (print _) _ _ tt _ eq_refl).
  rewrite (bind_returned DB (print _) _ _ tt _ eq_refl).
  gate_step H1. gate_step H2. gate_step H3.
  split; [intros _; repeat constructor; assumption | intros _; now exists tt].
Qed.

Lemma silver_gate_passes_iff_witness :
  passes (check_silver_quality_task unit (fun _ => Sample.healthy_hook)) Sample.w0 <->
  Forall (fun q => row_equals (Some [VInt 0]) 0) silver_queries.
Proof.
  apply (silver_gate_passes_iff unit (fun _ => Sample.healthy_hook)
           (fun _ => Some [VInt 0]) Sample.w0).
  intros q Hq d. simpl in Hq.
  destruct Hq as [<-|[<-|[<-|[]]]]; reflexivity.
Defined.

(** X7.  In a warehouse that answers each Gold query the same in every
    state, the Gold gate passes if and only if each of its five counts
    yields a row whose first scalar equals 0 and the completeness value (0
    for a missing row) is a number of at least 95. *)
Theorem gold_gate_passes_iff :
  forall DB (PostgresHook : string -> Hook DB)
         (answers : string -> option (list value)) (w : World DB),
    (forall q, In q gold_queries ->
               always_answers (PostgresHook POSTGRES_CONN_ID) q (answers q)) ->
    (passes (check_gold_quality_task DB PostgresHook) w <->
     Forall (fun q => row_equals (answers q) 0) gold_count_queries /\
     num_ge (completeness_of (answers sql_gold_completeness)) 95).
Proof.
  intros DB PostgresHook answers w Hall.
  pose proof (Hall _ (or_introl eq_refl)) as H1.
  pose proof (Hall _ (or_intror (or_introl eq_refl))) as H2.
  pose proof (Hall _ (or_intror (or_intror (or_introl eq_refl)))) as H3.
  pose proof (Hall _ (or_intror (or_intror (or_intror (or_introl eq_refl))))) as H4.
  pose proof (Hall _ (or_intror (or_intror (or_intror (or_intror (or_introl eq_refl))))))
    as H5.
  pose proof (Hall _ (or_intror (or_intror (or_intror (or_intror
                        (or_intror (or_introl eq_refl))))))) as H6.
  unfold passes, check_gold_quality_task. cbv zeta.
  rewrite (bind_returned DB (print _) _ _ tt _ eq_refl).
  rewrite (bind_returned DB (print _) _ _ tt _ eq_refl).
  gate_step H1. gate_step H2. gate_step H3. gate_step H4. gate_step H5.
  match goal with
  | |- context [bind (gold_completeness_check ?h) _ ?w5] =>
      pose proof (gold_completeness_check_passes_iff DB h w5 _ (H6 (db w5))) as Hc;
      unfold passes in Hc; fold (completeness_of (answers sql_gold_completeness)) in Hc;
      unfold bind at 1;
      destruct (gold_completeness_check h w5) as [[[]|e] w6]; cbn [fst] in Hc |- *
  end.
  - split; [intros _ | intros _; now exists tt].
    split; [repeat constructor; assumption | apply Hc; now exists tt].
  - split; [intros [a Ha]; discriminate|].
    intros [_ Hge]. apply Hc in Hge as [a Ha]. discriminate.
Qed.

Lemma gold_gate_passes_iff_witness :
  let answers q :=
    if String.eqb q sql_gold_completeness
    then Some [VDec (mkDecimal 10000 2)] else Some [VInt 0] in
  passes (check_gold_quality_task unit (fun _ => Sample.healthy_hook)) Sample.w0 <->
  Forall (fun q => row_equals (answers q) 0) gold_count_queries /\
  num_ge (completeness_of (answers sql_gold_completeness)) 95.
Proof.
  cbv zeta.
  apply (gold_gate_passes_iff unit (fun _ => Sample.healthy_hook)
           (fun q => if String.eqb q sql_gold_completeness
                     then Some [VDec (mkDecimal 10000 2)] else Some [VInt 0])
           Sample.w0).
  intros q Hq d. simpl in Hq.
  destruct Hq as [<-|[<-|[<-|[<-|[<-|[<-|[]]]]]]]; reflexivity.
Defined.

(* ================================================================== *)
(** ** What reaches the warehouse *)

Section Traces.

Variable DB : Type.
Variable PostgresHook : string -> Hook DB.
Variable fs : string -> option string.

Local Open Scope list_scope.

Lemma run_quality_assertion_trace (pg_hook : Hook DB) test_name query arg w :
  calls (snd (run_quality_assertion pg_hook test_name query arg w))
  = calls w ++ [GetFirst query] /\
  db (snd (run_quality_assertion pg_hook test_name query arg w))
  = snd (hook_get_first pg_hook query (db w)).
Proof.
  rewrite run_quality_assertion_eq; cbv zeta. unfold after_query.
  destruct (fst (hook_get_first pg_hook query (db w))) as [res|e]; [|now cbn].
  destruct (is_None _); [now cbn|]. destruct (ne_int _ _); now cbn.
Qed.

Lemma gold_completeness_check_trace (pg_hook : Hook DB) w :
  calls (snd (gold_completeness_check pg_hook w))
  = calls w ++ [GetFirst sql_gold_completeness] /\
  db (snd (gold_completeness_check pg_hook w))
  = snd (hook_get_first pg_hook sql_gold_completeness (db w)).
Proof.
  rewrite gold_completeness_check_eq; cbv zeta.
  destruct (fst (hook_get_first pg_hook sql_gold_completeness (db w))) as [res|e];
    [|now cbn].
  destruct (lt_float _ 95) as [te|[|]]; now cbn.
Qed.

(** Checks run one after the other send their queries in order, and
    nothing else. *)
Lemma run_checks_calls (cs : list (Check DB)) :
  (forall c, In c cs -> forall w,
        calls (snd (chk_body c w)) = calls w ++ [GetFirst (chk_query c)] /\
        db (snd (chk_body c w))
        = snd (hook_get_first (PostgresHook POSTGRES_CONN_ID) (chk_query c) (db w))) ->
  forall w, exists k : nat,
    (k <= List.length cs)%nat /\
    calls (snd (run_checks cs w))
    = calls w ++ map GetFirst (firstn k (map chk_query cs)) /\
    (is_returned (fst (run_checks cs w)) = true -> k = List.length cs) /\
    (read_only (PostgresHook POSTGRES_CONN_ID) -> db (snd (run_checks cs w)) = db w).
Proof.
  induction cs as [|c cs IH]; intros Hcs w.
  - exists 0%nat. cbn. rewrite app_nil_r. repeat split; auto.
  - destruct (Hcs c (or_introl eq_refl) w) as [Hc Hd].
    cbn [run_checks].
    destruct (chk_body c w) as [[[]|e] w1] eqn:E; cbn [snd] in Hc, Hd;
      [rewrite (bind_returned DB _ _ _ _ _ E) | rewrite (bind_raised DB _ _ _ _ _ E)].
    + destruct (IH (fun c' Hc' => Hcs c' (or_intror Hc')) w1) as (k & Hk & Hcalls & Hret & Hro).
      exists (S k). split; [cbn; lia|]. split; [|split].
      * rewrite Hcalls, Hc. cbn. now rewrite <- app_assoc.
      * intros Hr. cbn. f_equal. now apply Hret.
      * intros Hread. rewrite (Hro Hread), Hd. apply Hread.
    + exists 1%nat. split; [cbn; lia|]. split; [|split].
      * exact Hc.
      * discriminate.
      * intros Hread. cbn [snd]. rewrite Hd. apply Hread.
Qed.

Lemma silver_checks_trace c :
  In c (silver_checks PostgresHook) -> forall w,
    calls (snd (chk_body c w)) = calls w ++ [GetFirst (chk_query c)] /\
    db (snd (chk_body c w))
    = snd (hook_get_first (PostgresHook POSTGRES_CONN_ID) (chk_query c) (db w)).
Proof.
  intros Hc w. cbn in Hc.
  destruct Hc as [<-|[<-|[<-|[]]]]; apply run_quality_assertion_trace.
Qed.

Lemma gold_checks_trace c :
  In c (gold_checks PostgresHook) -> forall w,
    calls (snd (chk_body c w)) = calls w ++ [GetFirst (chk_query c)] /\
    db (snd (chk_body c w))
    = snd (hook_get_first (PostgresHook POSTGRES_CONN_ID) (chk_query c) (db w)).
Proof.
  intros Hc w. cbn in Hc.
  destruct Hc as [<-|[<-|[<-|[<-|[<-|[<-|[]]]]]]];
    solve [apply run_quality_assertion_trace | apply gold_completeness_check_trace].
Qed.

(** The lines around the checks of a gate change neither the trace, nor
    the warehouse, nor how the gate ends. *)
Lemma framed_trace (a b c d : string) (m : M DB unit) w :
  let w2 := mkWorld (db w) ((stdout w ++ [a]) ++ [b]) (calls w) in
  let framed := (print a ;; print b ;; m ;; print c ;; print d) w in
  calls (snd framed) = calls (snd (m w2)) /\
  db (snd framed) = db (snd (m w2)) /\
  is_returned (fst framed) = is_returned (fst (m w2)).
Proof.
  cbv zeta. unfold bind, print. cbn [db stdout calls].
  destruct (m _) as [[[]|e] w3]; now cbn.
Qed.

End Traces.

Section PipelineTrace.

Variable DB : Type.
Variable PostgresHook : string -> Hook DB.
Variable fs : string -> option string.

Local Open Scope list_scope.

Lemma framed_gate_calls (a b c d : string) (cs : list (Check DB)) :
  (forall c', In c' cs -> forall w,
        calls (snd (chk_body c' w)) = calls w ++ [GetFirst (chk_query c')] /\
        db (snd (chk_body c' w))
        = snd (hook_get_first (PostgresHook POSTGRES_CONN_ID) (chk_query c') (db w))) ->
  forall w, exists k : nat,
    (k <= List.length cs)%nat /\
    calls (snd ((print a ;; print b ;; run_checks cs ;; print c ;; print d) w))
    = calls w ++ map GetFirst (firstn k (map chk_query cs)) /\
    (is_returned (fst ((print a ;; print b ;; run_checks cs ;; print c ;; print d) w))
     = true -> k = List.length cs) /\
    (read_only (PostgresHook POSTGRES_CONN_ID) ->
     db (snd ((print a ;; print b ;; run_checks cs ;; print c ;; print d) w)) = db w).
Proof.
  intros Hcs w.
  pose proof (framed_trace DB a b c d (run_checks cs) w) as H. cbv zeta in H.
  destruct H as (Hc & Hd & Hr). rewrite Hc, Hd, Hr.
  destruct (run_checks_calls DB PostgresHook cs Hcs
              (mkWorld (db w) ((stdout w ++ [a]) ++ [b]) (calls w)))
    as (k & Hk & Hcalls & Hret & Hro).
  exists k. repeat split; assumption.
Qed.

Lemma framed_gate_footprint (a b c d : string) (cs : list (Check DB)) :
  announcements [a; b; c; d] = [] -> pass_marks [a; b; c; d] = [] ->
  Forall check_footprint cs ->
  (forall c', In c' cs -> forall w,
        calls (snd (chk_body c' w)) = calls w ++ [GetFirst (chk_query c')] /\
        db (snd (chk_body c' w))
        = snd (hook_get_first (PostgresHook POSTGRES_CONN_ID) (chk_query c') (db w))) ->
  task_footprint (print a ;; print b ;; run_checks cs ;; print c ;; print d)
                 (map GetFirst (map chk_query cs)) (List.length cs).
Proof.
  intros Hann Hpm Hfp Hcs w.
  destruct (framed_gate_calls a b c d cs Hcs w) as (k & Hk & Hcalls & Hret & _).
  destruct (fail_fast_framed DB a b c d (run_checks cs) cs Hann Hpm
              (run_checks_fail_fast DB cs Hfp) w)
    as (k' & nc & nl & _ & _ & Hout & _ & _ & Hres).
  exists k, nl. split; [now rewrite !length_map|].
  split; [now rewrite firstn_map|]. split; [exact Hout|].
  intros Hr. rewrite !length_map. split; [now apply Hret|].
  destruct (fst _) as [[]|e]; [|discriminate].
  destruct Hres as [-> Hp]. exact Hp.
Qed.

Lemma silver_gate_footprint :
  task_footprint (check_silver_quality_task DB PostgresHook)
                 (map GetFirst silver_queries) 3.
Proof.
  intros w. rewrite check_silver_quality_task_checks.
  apply (framed_gate_footprint _ _ _ _ (silver_checks PostgresHook));
    [reflexivity | reflexivity | apply silver_checks_footprint
    | apply silver_checks_trace].
Qed.

Lemma gold_gate_footprint :
  task_footprint (check_gold_quality_task DB PostgresHook)
                 (map GetFirst gold_queries) 6.
Proof.
  intros w. rewrite check_gold_quality_task_checks.
  apply (framed_gate_footprint _ _ _ _ (gold_checks PostgresHook));
    [reflexivity | reflexivity | apply gold_checks_footprint
    | apply gold_checks_trace].
Qed.

Lemma one_statement_footprint (pg_hook : Hook DB) before sql after :
  pass_marks (before ++ [after]) = [] ->
  task_footprint (one_statement pg_hook before sql after) [Run sql] 0.
Proof.
  intros Hpm w. unfold one_statement. cbv zeta.
  destruct (fst (hook_run pg_hook sql (db w))) as [[]|e]; cbn [fst snd stdout calls].
  - exists 1%nat, (before ++ [after]). split; [cbn; lia|]. split; [reflexivity|].
    split; [now rewrite <- app_assoc|]. intros _. split; [reflexivity|].
    now rewrite Hpm.
  - exists 1%nat, before. split; [cbn; lia|]. split; [reflexivity|].
    split; [reflexivity|]. discriminate.
Qed.

Lemma load_bronze_footprint :
  task_footprint (load_bronze_task DB PostgresHook) [Run bronze_statement] 0.
Proof.
  intros w. rewrite load_bronze_task_eq. apply one_statement_footprint. reflexivity.
Qed.

Lemma load_silver_footprint :
  task_footprint (load_silver_task DB PostgresHook) [Run silver_statement] 0.
Proof.
  intros w. rewrite load_silver_task_eq. apply one_statement_footprint. reflexivity.
Qed.

Lemma create_gold_views_footprint :
  task_footprint (create_gold_views_task DB PostgresHook fs)
                 (match fs gold_script_path with
                  | Some script => [Run script]
                  | None => []
                  end) 0.
Proof.
  intros w. rewrite create_gold_views_task_eq.
  destruct (fs gold_script_path) as [script|].
  - apply one_statement_footprint. reflexivity.
  - eexists 0%nat, _. cbn [fst snd stdout calls firstn].
    split; [cbn; lia|]. split; [now rewrite app_nil_r|].
    split; [reflexivity|]. discriminate.
Qed.

(** Footprints add up along the tasks that run in order. *)
Lemma run_in_order_footprint (tfs : list (Task DB * (list HookCall * nat))) :
  Forall (fun p => task_footprint (python_callable (fst p)) (fst (snd p)) (snd (snd p)))
         tfs ->
  forall w, exists (k : nat) lines,
    let full := List.concat (map (fun p => fst (snd p)) tfs) in
    let r := run_in_order (map fst tfs) w in
    (k <= List.length full)%nat /\
    calls (snd r) = calls w ++ firstn k full /\
    stdout (snd r) = stdout w ++ lines /\
    (forallb is_succeeded (map snd (fst (fst r))) = true ->
     k = List.length full /\
     List.length (pass_marks lines) = list_sum (map (fun p => snd (snd p)) tfs)).
Proof.
  induction 1 as [|[t [full n]] tfs Ht _ IH]; intros w; cbv zeta.
  - exists 0%nat, []. cbn. rewrite !app_nil_r. repeat split; reflexivity.
  - cbn [fst snd] in Ht. destruct (Ht w) as (k1 & l1 & Hk1 & Hc1 & Ho1 & Hr1).
    cbn [map List.concat fst snd run_in_order list_sum].
    destruct (python_callable t w) as [[[]|e] w1]; cbn [fst snd] in Hc1, Ho1, Hr1.
    + destruct (Hr1 eq_refl) as [-> Hp1]. rewrite firstn_all in Hc1.
      destruct (IH w1) as (k2 & l2 & Hk2 & Hc2 & Ho2 & Hr2). cbv zeta in *.
      destruct (run_in_order (map fst tfs) w1) as [[sts ran] w2]. cbn [fst snd] in *.
      exists (List.length full + k2)%nat, (l1 ++ l2).
      split; [rewrite length_app; lia|].
      split; [rewrite firstn_app_2, Hc2, Hc1, <- app_assoc; reflexivity|].
      split; [rewrite Ho2, Ho1, <- app_assoc; reflexivity|].
      cbn [map forallb is_succeeded andb]. intros Hs.
      destruct (Hr2 Hs) as [-> Hp2].
      split; [now rewrite length_app|].
      unfold pass_marks in *. now rewrite filter_app, length_app, Hp1, Hp2.
    + exists k1, l1. split; [rewrite length_app; lia|].
      split.
      { rewrite firstn_app. replace (k1 - List.length full)%nat with 0%nat by lia.
        cbn [firstn]. now rewrite app_nil_r. }
      split; [exact Ho1|]. cbn. discriminate.
Qed.

(** The footprint of a whole run of the pipeline. *)
Lemma pipeline_footprint w :
  exists (k : nat) lines,
    let r := run_dag (sql_data_warehouse_pipeline_with_assertions PostgresHook fs) w in
    (k <= List.length (pipeline_statements fs))%nat /\
    calls (world r) = calls w ++ firstn k (pipeline_statements fs) /\
    stdout (world r) = stdout w ++ lines /\
    (forallb is_succeeded (map snd (ti_states r)) = true ->
     k = List.length (pipeline_statements fs) /\ List.length (pass_marks lines) = 9%nat).
Proof.
  pose proof (run_in_order_footprint
                [ (mkTask "load_bronze" (load_bronze_task DB PostgresHook),
                   ([Run bronze_statement], 0%nat));
                  (mkTask "load_silver" (load_silver_task DB PostgresHook),
                   ([Run silver_statement], 0%nat));
                  (mkTask "check_silver_quality"
                          (check_silver_quality_task DB PostgresHook),
                   (map GetFirst silver_queries, 3%nat));
                  (mkTask "create_gold_views"
                          (create_gold_views_task DB PostgresHook fs),
                   (match fs gold_script_path with
                    | Some script => [Run script]
                    | None => []
                    end, 0%nat));
                  (mkTask "check_gold_quality" (check_gold_quality_task DB PostgresHook),
                   (map GetFirst gold_queries, 6%nat)) ]) as H.
  assert (Hfull : List.concat
                    [ [Run bronze_statement]; [Run silver_statement];
                      map GetFirst silver_queries;
                      match fs gold_script_path with
                      | Some script => [Run script]
                      | None => []
                      end;
                      map GetFirst gold_queries ]
                  = pipeline_statements fs).
  { unfold pipeline_statements. destruct (fs gold_script_path); reflexivity. }
  cbn [map fst snd list_sum Nat.add] in H. rewrite Hfull in H.
  rewrite pipeline_is_chain, run_dag_chain by apply pipeline_ids_nodup.
  match type of H with
  | ?P -> _ => assert (HF : P)
  end.
  { repeat apply Forall_cons; cbn [fst snd python_callable];
      [ apply load_bronze_footprint | apply load_silver_footprint
      | apply silver_gate_footprint | apply create_gold_views_footprint
      | apply gold_gate_footprint | apply Forall_nil ]. }
  destruct (H HF w) as (k & lines & Hk & Hc & Ho & Hr).
  exists k, lines. cbv zeta in *.
  change (dag_tasks (sql_data_warehouse_pipeline_with_assertions PostgresHook fs))
    with [ mkTask "load_bronze" (load_bronze_task DB PostgresHook);
           mkTask "load_silver" (load_silver_task DB PostgresHook);
           mkTask "check_silver_quality" (check_silver_quality_task DB PostgresHook);
           mkTask "create_gold_views" (create_gold_views_task DB PostgresHook fs);
           mkTask "check_gold_quality" (check_gold_quality_task DB PostgresHook) ].
  destruct (run_in_order _ w) as [[sts ran] w'].
  cbn [fst snd ti_states world] in *. repeat split; try assumption; now apply Hr.
Qed.

End PipelineTrace.

(** X8.  The two quality gates only ask: every call they make on the hook
    is a [get_first] of one of their declared queries, in the declared
    order, and never a [run].  With a hook whose queries leave the
    warehouse as it is, a gate leaves the warehouse as it found it, whether
    it passes or fails. *)
Theorem quality_gates_only_query :
  forall DB (PostgresHook : string -> Hook DB) (w : World DB),
    (exists k : nat,
        calls (snd (check_silver_quality_task DB PostgresHook w))
        = (calls w ++ map GetFirst (firstn k silver_queries))%list) /\
    (exists k : nat,
        calls (snd (check_gold_quality_task DB PostgresHook w))
        = (calls w ++ map GetFirst (firstn k gold_queries))%list) /\
    (read_only (PostgresHook POSTGRES_CONN_ID) ->
     db (snd (check_silver_quality_task DB PostgresHook w)) = db w /\
     db (snd (check_gold_quality_task DB PostgresHook w)) = db w).
Proof.
  intros DB PostgresHook w.
  rewrite check_silver_quality_task_checks, check_gold_quality_task_checks.
  destruct (framed_gate_calls DB PostgresHook
              "🔍 Executing Silver Layer Quality Assertions..." (str_mul "=" 60)
              (str_mul "=" 60) "✓ All Silver quality assertions passed"
              (silver_checks PostgresHook) (silver_checks_trace DB PostgresHook) w)
    as (ks & _ & Hs & _ & Hsd).
  destruct (framed_gate_calls DB PostgresHook
              "🔍 Executing Gold Layer Quality Assertions..." (str_mul "=" 60)
              (str_mul "=" 60) "✓ All Gold quality assertions passed"
              (gold_checks PostgresHook) (gold_checks_trace DB PostgresHook) w)
    as (kg & _ & Hg & _ & Hgd).
  split; [exists ks; exact Hs|]. split; [exists kg; exact Hg|].
  intros Hro. split; [now apply Hsd | now apply Hgd].
Qed.

Lemma quality_gates_only_query_witness :
  db (snd (check_silver_quality_task nat (fun _ => Sample.counting_hook)
             (mkWorld 7%nat [] []))) = 7%nat /\
  db (snd (check_gold_quality_task nat (fun _ => Sample.counting_hook)
             (mkWorld 7%nat [] []))) = 7%nat.
Proof.
  apply (proj2 (proj2 (quality_gates_only_query nat (fun _ => Sample.counting_hook)
                         (mkWorld 7%nat [] [])))).
  intros query d. reflexivity.
Defined.

(** X9.  Whatever the warehouse and the container do, what a run of the
    pipeline sends to the warehouse is an initial part of one fixed
    sequence: the Bronze call, the Silver call, the three Silver queries,
    the Gold script (when the container has it), the six Gold queries.
    Nothing is sent ahead of its turn. *)
Theorem pipeline_sends_initial_part :
  forall DB (PostgresHook : string -> Hook DB) fs (w : World DB),
    exists k : nat,
      calls (world (run_dag (sql_data_warehouse_pipeline_with_assertions
                               PostgresHook fs) w))
      = (calls w ++ firstn k (pipeline_statements fs))%list.
Proof.
  intros DB PostgresHook fs w.
  destruct (pipeline_footprint DB PostgresHook fs w) as (k & lines & _ & Hc & _).
  now exists k.
Qed.

(** X10.  A run of the pipeline that ends completed has sent the whole
    sequence, every statement and every query once and in order, and has
    printed nine pass marks: one for each of the three Silver and six Gold
    checks. *)
Theorem completed_run_passed_every_check :
  forall DB (PostgresHook : string -> Hook DB) fs (w : World DB),
    let r := run_dag (sql_data_warehouse_pipeline_with_assertions PostgresHook fs) w in
    run_outcome r = Completed ->
    calls (world r) = (calls w ++ pipeline_statements fs)%list /\
    exists lines,
      stdout (world r) = (stdout w ++ lines)%list /\
      List.length (pass_marks lines) = 9%nat.
Proof.
  intros DB PostgresHook fs w r Hdone. subst r.
  destruct (pipeline_footprint DB PostgresHook fs w) as (k & lines & Hk & Hc & Ho & Hr).
  cbv zeta in *.
  assert (Hs : forallb is_succeeded
                 (map snd (ti_states (run_dag (sql_data_warehouse_pipeline_with_assertions
                                                 PostgresHook fs) w))) = true).
  { unfold run_outcome in Hdone.
    destruct (first_failed 0 _) as [[i e]|]; [discriminate|].
    destruct (forallb is_succeeded _); [reflexivity | discriminate]. }
  destruct (Hr Hs) as [-> Hp]. rewrite firstn_all in Hc.
  split; [exact Hc|]. now exists lines.
Qed.

Lemma completed_run_passed_every_check_witness :
  let r := run_dag (sql_data_warehouse_pipeline_with_assertions
                      (fun _ => Sample.healthy_hook) Sample.fs) Sample.w0 in
  calls (world r) = pipeline_statements Sample.fs /\
  exists lines, stdout (world r) = lines /\ List.length (pass_marks lines) = 9%nat.
Proof.
  cbv zeta.
  apply (completed_run_passed_every_check unit (fun _ => Sample.healthy_hook)
           Sample.fs Sample.w0).
  vm_compute. reflexivity.
Defined.

(* ================================================================== *)
(** ** Runs that stop early *)


Lemma pipeline_tasks DB (PostgresHook : string -> Hook DB) fs :
  dag_tasks (sql_data_warehouse_pipeline_with_assertions PostgresHook fs)
  = [ mkTask "load_bronze" (load_bronze_task DB PostgresHook);
      mkTask "load_silver" (load_silver_task DB PostgresHook);
      mkTask "check_silver_quality" (check_silver_quality_task DB PostgresHook);
      mkTask "create_gold_views" (create_gold_views_task DB PostgresHook fs);
      mkTask "check_gold_quality" (check_gold_quality_task DB PostgresHook) ].
Proof. reflexivity. Qed.


Lemma missing_gold_script_raises DB (PostgresHook : string -> Hook DB) fs (w : World DB) :
  fs gold_script_path = None ->
  create_gold_views_task DB PostgresHook fs w
  = (Raised (FileNotFoundError
               ("✗ CRITICAL: SQL file not found at " ++ gold_script_path)),
     mkWorld (db w)
             (stdout w ++ [("✗ CRITICAL: SQL file not found at "
                              ++ gold_script_path)%string])%list
             (calls w)).
Proof. intros Hfs. rewrite create_gold_views_task_eq. now rewrite Hfs. Qed.



(** X12.  In a container without the Gold script no run completes: the run
    is aborted at the Gold view stage or before it, and the Gold gate is
    set aside without running. *)
Theorem missing_gold_script_aborts_run :
  forall DB (PostgresHook : string -> Hook DB) fs (w : World DB),
    fs "/opt/airflow/project_root/scripts/gold/ddl_gold.sql" = None ->
    let r := run_dag (sql_data_warehouse_pipeline_with_assertions PostgresHook fs) w in
    (exists i e, run_outcome r = Aborted i e /\ (i <= 3)%nat) /\
    state_of (ti_states r) "check_gold_quality" = Skipped.
Proof.
  intros DB PostgresHook fs w Hfs r. subst r.
  rewrite pipeline_is_chain, run_dag_chain by apply pipeline_ids_nodup.
  rewrite pipeline_tasks. cbn [run_in_order python_callable task_id].
  destruct (load_bronze_task DB PostgresHook w) as [[[]|e1] w1];
    [|split; [exists 0%nat, e1; split; [reflexivity | lia] | reflexivity]].
  destruct (load_silver_task DB PostgresHook w1) as [[[]|e2] w2];
    [|split; [exists 1%nat, e2; split; [reflexivity | lia] | reflexivity]].
  destruct (check_silver_quality_task DB PostgresHook w2) as [[[]|e3] w3];
    [|split; [exists 2%nat, e3; split; [reflexivity | lia] | reflexivity]].
  rewrite (missing_gold_script_raises DB PostgresHook fs w3 Hfs).
  split; [eexists 3%nat, _; split; [reflexivity | lia] | reflexivity].
Qed.

Lemma missing_gold_script_aborts_run_witness :
  let r := run_dag (sql_data_warehouse_pipeline_with_assertions
                      (fun _ => Sample.healthy_hook) Sample.empty_fs) Sample.w0 in
  (exists i e, run_outcome r = Aborted i e /\ (i <= 3)%nat) /\
  state_of (ti_states r) "check_gold_quality" = Skipped.
Proof.
  cbv zeta.
  apply (missing_gold_script_aborts_run unit (fun _ => Sample.healthy_hook)
           Sample.empty_fs Sample.w0).
  reflexivity.
Defined.
